(** * Shallow embedding of the MuditaOS system manager
    (module-sys/SystemManager/SystemManagerCommon.cpp).

    The system manager is a single service thread: every handler below runs
    to completion on its own state before the next message is popped, so the
    embedding is explicit state passing over a record [SysMgr].  Side effects
    that leave the manager (bus sends, synchronous close requests, kills,
    timer starts and stops, log lines that matter) are recorded in an
    append-only trace, in program order. *)

From Stdlib Require Import String List Bool Arith Lia.
Import ListNotations.
Open Scope string_scope.
Open Scope list_scope.

(** ** Names of the collaborating services ([service::name::...], declared in
    the services' constant headers). *)
Module Name.
Definition system_manager : string := "SysMgrService".
Definition evt_manager : string := "EventManager".
Definition service_desktop : string := "ServiceDesktop".
Definition gui : string := "ServiceGUI".
Definition db : string := "ServiceDB".
Definition eink : string := "ServiceEink".
Definition appmgr : string := "ApplicationManager".
End Name.

(** ** Enumerations *)

(** [SystemManagerCommon::State], as declared in SystemManagerCommon.hpp. *)
Inductive State :=
| Running
| Suspend
| Shutdown
| ShutdownReady
| Reboot
| RebootToUpdate.

Definition State_eqb (a b : State) : bool :=
  match a, b with
  | Running, Running | Suspend, Suspend | Shutdown, Shutdown
  | ShutdownReady, ShutdownReady | Reboot, Reboot
  | RebootToUpdate, RebootToUpdate => true
  | _, _ => false
  end.

(** [sys::CloseReason] *)
Inductive CloseReason :=
| RegularPowerDown
| CRReboot
| LowBattery
| SystemBrownout
| FactoryReset.

(** [sys::UpdateReason] *)
Inductive UpdateReason := UpdateReasonUpdate | UpdateReasonRecovery | UpdateReasonFactoryReset.

(** [Store::Battery::LevelState] and [Store::Battery::State] *)
Inductive LevelState := Normal | LSShutdown | CriticalCharging | CriticalNotCharging.
Inductive BatteryState := Discharging | Charging | ChargingDone | PluggedNotCharging.

Definition is_discharging (b : BatteryState) : bool :=
  match b with Discharging => true | _ => false end.

(** [phone_modes::Tethering] *)
Inductive Tethering := TetheringOff | TetheringOn.

Definition Tethering_eqb (a b : Tethering) : bool :=
  match a, b with
  | TetheringOff, TetheringOff | TetheringOn, TetheringOn => true
  | _, _ => false
  end.

(** [app::manager::StartupType] *)
Inductive StartupType := StartupRegular | StartupLowBattery | StartupLowBatteryCharging.

(** Messages the system manager sends to the application manager. *)
Inductive AppMsg :=
| CriticalBatteryLevelNotification (critical : bool) (charging : bool)
| StartAllowedMessage (t : StartupType)
| TetheringQuestionRequest
| TetheringQuestionAbort
| TetheringPhoneModeChangeProhibitedMessage.

(** ** Observable effects, in program order. *)
Inductive Event :=
| StopLowBatteryTimer                       (* lowBatteryShutdownDelay.stop()  *)
| StartLowBatteryTimer                      (* lowBatteryShutdownDelay.start() *)
| SendCloseReason (name : string) (r : CloseReason)
                                            (* bus.sendUnicast(ServiceCloseReasonMessage) *)
| StartWatchdog                             (* servicesPreShutdownRoutineTimeout.start() *)
| StopWatchdog                              (* servicesPreShutdownRoutineTimeout.stop()  *)
| LogNotReported (name : string)            (* "did not reported before timeout" *)
| LogDelayClosing (name : string)           (* whitelisted, kept *)
| RequestExit (name : string)               (* RequestServiceClose: sendUnicastSync(Exit) *)
| Deinit (name : string)                    (* kill: DeinitHandler() *)
| CloseHandlerCalled (name : string)        (* kill: CloseHandler()  *)
| SetState (st : State)                     (* set(state) *)
| SendAppmgr (m : AppMsg)
| SendRequestPhoneModeForceUpdate           (* to evt_manager *)
| CellularPower (on : bool)
| SetTetheringModeCalled (t : Tethering)
| LogTetheringRefused                       (* "refused - battery too low" *)
| LogIgnoredOnShutdown (sender : string).

(** ** The system manager's state *)
Record SysMgr := mkSysMgr {
  servicesList : list string;          (* registered services, by name *)
  readyForCloseRegister : list string; (* pending close acknowledgments *)
  watchdogActive : bool;               (* servicesPreShutdownRoutineTimeout.isActive() *)
  lowBatteryTimerActive : bool;        (* lowBatteryShutdownDelay.isActive() *)
  state : State;
  updateReason : UpdateReason;
  batteryLevel : LevelState;           (* Store::Battery::get().levelState *)
  batteryState : BatteryState;         (* Store::Battery::get().state *)
  tethering : Tethering;               (* phoneModeSubject's tethering mode *)
  trace : list Event
}.

Definition emit (e : Event) (s : SysMgr) : SysMgr :=
  mkSysMgr (servicesList s) (readyForCloseRegister s) (watchdogActive s)
           (lowBatteryTimerActive s) (state s) (updateReason s) (batteryLevel s)
           (batteryState s) (tethering s) (trace s ++ [e]).

Definition with_services (l : list string) (s : SysMgr) : SysMgr :=
  mkSysMgr l (readyForCloseRegister s) (watchdogActive s)
           (lowBatteryTimerActive s) (state s) (updateReason s) (batteryLevel s)
           (batteryState s) (tethering s) (trace s).

Definition with_register (l : list string) (s : SysMgr) : SysMgr :=
  mkSysMgr (servicesList s) l (watchdogActive s)
           (lowBatteryTimerActive s) (state s) (updateReason s) (batteryLevel s)
           (batteryState s) (tethering s) (trace s).

Definition with_watchdog (b : bool) (s : SysMgr) : SysMgr :=
  mkSysMgr (servicesList s) (readyForCloseRegister s) b
           (lowBatteryTimerActive s) (state s) (updateReason s) (batteryLevel s)
           (batteryState s) (tethering s) (trace s).

Definition with_lowBatteryTimer (b : bool) (s : SysMgr) : SysMgr :=
  mkSysMgr (servicesList s) (readyForCloseRegister s) (watchdogActive s)
           b (state s) (updateReason s) (batteryLevel s)
           (batteryState s) (tethering s) (trace s).

Definition with_state (st : State) (s : SysMgr) : SysMgr :=
  mkSysMgr (servicesList s) (readyForCloseRegister s) (watchdogActive s)
           (lowBatteryTimerActive s) st (updateReason s) (batteryLevel s)
           (batteryState s) (tethering s) (trace s).

Definition with_updateReason (u : UpdateReason) (s : SysMgr) : SysMgr :=
  mkSysMgr (servicesList s) (readyForCloseRegister s) (watchdogActive s)
           (lowBatteryTimerActive s) (state s) u (batteryLevel s)
           (batteryState s) (tethering s) (trace s).

Definition with_tethering (t : Tethering) (s : SysMgr) : SysMgr :=
  mkSysMgr (servicesList s) (readyForCloseRegister s) (watchdogActive s)
           (lowBatteryTimerActive s) (state s) (updateReason s) (batteryLevel s)
           (batteryState s) t (trace s).

(** ** Whitelists (namespace sys::state) *)
Module Whitelist.
Definition update : list string :=
  [Name.service_desktop; Name.evt_manager; Name.gui; Name.db; Name.eink; Name.appmgr].
Definition restore : list string :=
  [Name.service_desktop; Name.evt_manager; Name.gui; Name.eink; Name.appmgr].
Definition regularClose : list string := [Name.evt_manager].
End Whitelist.

(** [state::isOnWhitelist]: [std::find] over the whitelist by string equality. *)
Definition isOnWhitelist (wl : list string) (serviceName : string) : bool :=
  existsb (String.eqb serviceName) wl.

(** The three teardown rounds that call [DestroyServices]. *)
Inductive Round := RUpdate | RRestore | RRegularClose.

Definition whitelist_of (r : Round) : list string :=
  match r with
  | RUpdate => Whitelist.update
  | RRestore => Whitelist.restore
  | RRegularClose => Whitelist.regularClose
  end.

Section SystemManager.

(** Outcome of the synchronous [SystemMessageType::Exit] request sent to a
    service: [true] when [sendUnicastSync] returned [Success] and the
    response carried [Success].  It is decided by the callee, so it is a
    parameter of the whole development. *)
Variable closeOk : string -> bool.

(** [RequestServiceClose] *)
Definition RequestServiceClose (name : string) (s : SysMgr) : bool * SysMgr :=
  (closeOk name, emit (RequestExit name) s).

(** [kill]: [DeinitHandler()] then [CloseHandler()]. *)
Definition kill (name : string) (s : SysMgr) : SysMgr :=
  emit (CloseHandlerCalled name) (emit (Deinit name) s).

(** The iterate-and-erase loop of [DestroyServices]: returns the services
    left in the list and the state after the effects. *)
Fixpoint destroy_loop (wl : list string) (l : list string) (s : SysMgr)
  : list string * SysMgr :=
  match l with
  | [] => ([], s)
  | name :: rest =>
      if isOnWhitelist wl name then
        let '(kept, s') := destroy_loop wl rest (emit (LogDelayClosing name) s) in
        (name :: kept, s')
      else
        let '(ok, s1) := RequestServiceClose name s in
        let s2 := if ok then s1 else kill name s1 in
        destroy_loop wl rest s2          (* servicesList.erase(service) *)
  end.

(** [DestroyServices(whitelist)] *)
Definition DestroyServices (wl : list string) (s : SysMgr) : SysMgr :=
  let '(kept, s') := destroy_loop wl (servicesList s) s in
  with_services kept s'.

(** [set(state)] *)
Definition set (st : State) (s : SysMgr) : SysMgr :=
  emit (SetState st) (with_state st s).

(** The broadcast loop of [preCloseRoutine]. *)
Fixpoint broadcast (r : CloseReason) (l : list string) (s : SysMgr) : SysMgr :=
  match l with
  | [] => s
  | name :: rest =>
      let s1 := emit (SendCloseReason name r) s in
      broadcast r rest (with_register (readyForCloseRegister s1 ++ [name]) s1)
  end.

(** [preCloseRoutine(closeReason)]: broadcast, then create and start the
    pre-shutdown watchdog. *)
Definition preCloseRoutine (r : CloseReason) (s : SysMgr) : SysMgr :=
  let s1 := broadcast r (servicesList s) s in
  emit StartWatchdog (with_watchdog true s1).

(** [CloseSystemHandler(closeReason)] *)
Definition CloseSystemHandler (r : CloseReason) (s : SysMgr) : SysMgr :=
  let s1 := emit StopLowBatteryTimer (with_lowBatteryTimer false s) in
  let s2 := with_services (rev (servicesList s1)) s1 in
  preCloseRoutine r s2.

(** [CloseServices]: the watchdog callback, also called once every service
    acknowledged. *)
Definition CloseServices (s : SysMgr) : SysMgr :=
  let s1 := fold_left (fun acc name => emit (LogNotReported name) acc)
                      (readyForCloseRegister s) s in
  let s2 := with_register [] s1 in
  let s3 := DestroyServices Whitelist.regularClose s2 in
  set Shutdown s3.

(** [readyToCloseHandler] for a [ReadyToCloseMessage] from [sender];
    [std::remove]/[erase] drops every occurrence of the sender. *)
Definition readyToCloseHandler (sender : string) (s : SysMgr) : SysMgr :=
  if negb (match readyForCloseRegister s with [] => true | _ => false end)
     && watchdogActive s then
    let s1 := with_register
                (filter (fun n => negb (String.eqb n sender)) (readyForCloseRegister s)) s in
    match readyForCloseRegister s1 with
    | [] => CloseServices (emit StopWatchdog (with_watchdog false s1))
    | _ => s1
    end
  else s.

(** [RestoreSystemHandler] *)
Definition RestoreSystemHandler (s : SysMgr) : SysMgr :=
  DestroyServices Whitelist.restore (with_services (rev (servicesList s)) s).

(** [UpdateSystemHandler] *)
Definition UpdateSystemHandler (s : SysMgr) : SysMgr :=
  DestroyServices Whitelist.update (with_services (rev (servicesList s)) s).

(** [RebootHandler(state, updateReason)] *)
Definition RebootHandler (st : State) (u : option UpdateReason) (s : SysMgr) : SysMgr :=
  let s1 := set st (CloseSystemHandler CRReboot s) in
  match u with
  | Some u' => with_updateReason u' s1
  | None => s1
  end.

End SystemManager.

(** Modelled from the spec: [phone_modes::Subject::setTetheringMode], whose
    code is not among the sources; the subject applies the requested
    tethering mode at once and reports whether the mode changed. *)
Definition setTetheringMode (t : Tethering) (s : SysMgr) : bool * SysMgr :=
  (negb (Tethering_eqb (tethering s) t),
   with_tethering t (emit (SetTetheringModeCalled t) s)).

(** [handleTetheringStateRequest] *)
Definition handleTetheringStateRequest (requested : Tethering) (s : SysMgr) : SysMgr :=
  match batteryLevel s with
  | Normal =>
      match requested with
      | TetheringOn => emit (SendAppmgr TetheringQuestionRequest) s
      | TetheringOff =>
          let '(tetheringChanged, s1) := setTetheringMode TetheringOff s in
          if negb tetheringChanged then emit (SendAppmgr TetheringQuestionAbort) s1
          else emit SendRequestPhoneModeForceUpdate s1
      end
  | _ => emit LogTetheringRefused s           (* return MessageNone{} *)
  end.

(** [enableTethering] (on [TetheringEnabledResponse]) *)
Definition enableTethering (s : SysMgr) : SysMgr :=
  snd (setTetheringMode TetheringOn s).

(** [batteryShutdownLevelAction] *)
Definition batteryShutdownLevelAction (s : SysMgr) : SysMgr :=
  CloseSystemHandler LowBattery s.

(** [batteryCriticalLevelAction(charging)] *)
Definition batteryCriticalLevelAction (charging : bool) (s : SysMgr) : SysMgr :=
  emit (SendAppmgr (CriticalBatteryLevelNotification true charging))
       (emit (CellularPower false) s).

(** [batteryNormalLevelAction] *)
Definition batteryNormalLevelAction (s : SysMgr) : SysMgr :=
  emit (SendAppmgr (CriticalBatteryLevelNotification false false))
       (emit (CellularPower true) s).

(** The [BatteryStateChangeMessage] handler connected by [postStartRoutine]. *)
Definition batteryStateChangeHandler (s : SysMgr) : SysMgr :=
  match batteryLevel s with
  | Normal => batteryNormalLevelAction s
  | LSShutdown => batteryShutdownLevelAction s
  | CriticalCharging => batteryCriticalLevelAction true s
  | CriticalNotCharging => batteryCriticalLevelAction false s
  end.

(** The [app::manager::CheckIfStartAllowedMessage] handler. *)
Definition checkIfStartAllowedHandler (s : SysMgr) : SysMgr :=
  match batteryLevel s with
  | Normal => emit (SendAppmgr (StartAllowedMessage StartupRegular)) s
  | LSShutdown =>
      let s1 := if lowBatteryTimerActive s then s
                else emit StartLowBatteryTimer (with_lowBatteryTimer true s) in
      emit (SendAppmgr (StartAllowedMessage StartupLowBattery)) s1
  | CriticalNotCharging => emit (SendAppmgr (StartAllowedMessage StartupLowBattery)) s
  | CriticalCharging => emit (SendAppmgr (StartAllowedMessage StartupLowBatteryCharging)) s
  end.

(** The [CellularCheckIfStartAllowedMessage] handler. *)
Definition cellularCheckIfStartAllowedHandler (s : SysMgr) : SysMgr :=
  match batteryLevel s with
  | Normal => emit (CellularPower true) s
  | CriticalCharging | CriticalNotCharging => emit (CellularPower false) s
  | LSShutdown => s
  end.

(** [SystemManagerCmd::type] *)
Inductive Code := CodeCloseSystem | CodeUpdate | CodeRestore | CodeReboot | CodeRebootToUpdate | CodeNone.

(** Messages the system manager's mailbox can deliver.  Timer expiries are
    delivered as messages to the owning service; [OtherMessage] stands for
    the handlers whose effects lie outside the modelled state (CPU frequency,
    device and sentinel registration, phone mode). *)
Inductive Msg :=
| SystemManagerCmd (onRequestsChannel : bool) (type : Code)
                   (closeReason : CloseReason) (updReason : UpdateReason)
| BatteryStatusChangeMessage
| KbdMessage
| BatteryBrownoutMessage
| BatteryStateChangeMessage
| CellularCheckIfStartAllowedMessage
| UserPowerDownRequest
| ReadyToCloseMessage
| CheckIfStartAllowedMessage
| TetheringStateRequest (t : Tethering)
| TetheringEnabledResponse
| PreShutdownTimerExpired          (* servicesPreShutdownRoutine timer *)
| LowBatteryShutdownDelayExpired   (* lowBatteryShutdownDelay timer *)
| OtherMessage.

Record Envelope := envelope { sender : string; body : Msg }.

(** [msg->Execute(this)]: dispatch to the handler connected in
    [InitHandler] / [postStartRoutine], or to a timer callback. *)
Definition Execute (closeOk : string -> bool) (e : Envelope) (s : SysMgr) : SysMgr :=
  match body e with
  | SystemManagerCmd ch type r u =>
      if ch then
        match type with
        | CodeCloseSystem => CloseSystemHandler r s
        | CodeUpdate => UpdateSystemHandler closeOk s
        | CodeRestore => RestoreSystemHandler closeOk s
        | CodeReboot => RebootHandler Reboot None s
        | CodeRebootToUpdate => RebootHandler RebootToUpdate (Some u) s
        | CodeNone => s
        end
      else s
  | BatteryStatusChangeMessage =>
      if State_eqb (state s) Shutdown && is_discharging (batteryState s)
      then set ShutdownReady s else s
  | KbdMessage => if State_eqb (state s) Shutdown then set Reboot s else s
  | BatteryBrownoutMessage => CloseSystemHandler SystemBrownout s
  | BatteryStateChangeMessage => batteryStateChangeHandler s
  | CellularCheckIfStartAllowedMessage => cellularCheckIfStartAllowedHandler s
  | UserPowerDownRequest => CloseSystemHandler RegularPowerDown s
  | ReadyToCloseMessage => readyToCloseHandler closeOk (sender e) s
  | CheckIfStartAllowedMessage => checkIfStartAllowedHandler s
  | TetheringStateRequest t => handleTetheringStateRequest t s
  | TetheringEnabledResponse => enableTethering s
  | PreShutdownTimerExpired => if watchdogActive s then CloseServices closeOk s else s
  | LowBatteryShutdownDelayExpired =>
      if lowBatteryTimerActive s then CloseSystemHandler LowBattery s else s
  | OtherMessage => s
  end.

Section Run.
Variable closeOk : string -> bool.

(** [while (state == State::Running) { pop; Execute }].  The mailbox is a
    finite list; when it runs dry the loop would block, and the model
    returns with the state still [Running]. *)
Fixpoint running_loop (mb : list Envelope) (s : SysMgr) : list Envelope * SysMgr :=
  if State_eqb (state s) Running then
    match mb with
    | [] => ([], s)
    | m :: rest => running_loop rest (Execute closeOk m s)
    end
  else (mb, s).

(** [while (state == State::Shutdown) { ... }] *)
Fixpoint shutdown_loop (mb : list Envelope) (s : SysMgr) : list Envelope * SysMgr :=
  if State_eqb (state s) Shutdown then
    if is_discharging (batteryState s) then (mb, set ShutdownReady s)
    else
      match mb with
      | [] => ([], s)
      | m :: rest =>
          if String.eqb (sender m) Name.evt_manager
          then shutdown_loop rest (Execute closeOk m s)
          else shutdown_loop rest (emit (LogIgnoredOnShutdown (sender m)) s)
      end
  else (mb, s).

(** [DestroySystemService(name, caller)] *)
Fixpoint erase_first (name : string) (l : list string) : list string :=
  match l with
  | [] => []
  | n :: rest => if String.eqb n name then rest else n :: erase_first name rest
  end.

Definition DestroySystemService (name : string) (s : SysMgr) : bool * SysMgr :=
  let '(ok, s1) := RequestServiceClose closeOk name s in
  if ok then
    if existsb (String.eqb name) (servicesList s1)
    then (true, with_services (erase_first name (servicesList s1)) s1)
    else (false, s1)
  else (false, s1).

End Run.

(** Outcome of the terminal [switch (state)] of [Run]. *)
Inductive PowerAction :=
| PowerReboot
| PowerOff
| PowerRebootToUpdate (u : UpdateReason)
| Exit1.                                  (* LOG_FATAL; exit(1) *)

Definition terminal_switch (s : SysMgr) : PowerAction :=
  match state s with
  | Reboot => PowerReboot
  | ShutdownReady => PowerOff
  | RebootToUpdate => PowerRebootToUpdate (updateReason s)
  | _ => Exit1
  end.

(** [Run] after [initialize()]: [None] while a loop still waits for mail.
    [CloseService()] and [EndScheduler()] touch no modelled state. *)
Definition Run (closeOk : string -> bool) (mb : list Envelope) (s : SysMgr)
  : option (PowerAction * SysMgr) :=
  let '(mb1, s1) := running_loop closeOk mb s in
  if State_eqb (state s1) Running then None
  else
    let '(_, s2) := shutdown_loop closeOk mb1 s1 in
    if State_eqb (state s2) Shutdown then None
    else
      let '(_, s3) := DestroySystemService closeOk Name.evt_manager s2 in
      Some (terminal_switch s3, s3).

(** [StartSystemServices] over the sorted start order: [RunSystemService]
    appends each service to [servicesList], then the start handshake must
    succeed ([startOk]) or startup throws. *)
Fixpoint StartSystemServices (startOk : string -> bool) (sorted : list string) (s : SysMgr)
  : option SysMgr :=
  match sorted with
  | [] => Some s
  | name :: rest =>
      let s1 := with_services (servicesList s ++ [name]) s in
      if startOk name then StartSystemServices startOk rest s1 else None
  end.

(** [phone_modes::PhoneMode] *)
Inductive PhoneMode := Connected | DoNotDisturb | Offline.

(** [bsp::KeyCodes]: the three slider positions, and any other key code. *)
Inductive KeyCode := SSwitchUp | SSwitchMid | SSwitchDown | OtherKey (code : nat).

(** [translateSliderState]: a lookup in [SliderStateToPhoneModeMapping];
    [None] stands for the [std::invalid_argument] thrown on other keys. *)
Definition translateSliderState (code : KeyCode) : option PhoneMode :=
  match code with
  | SSwitchUp => Some Connected
  | SSwitchMid => Some DoNotDisturb
  | SSwitchDown => Some Offline
  | OtherKey _ => None
  end.

(** [handlePhoneModeRequest]: the first component is the mode handed to
    [phoneModeSubject->setPhoneMode], [None] when the request is refused;
    [isTetheringEnabled] reads the subject's tethering mode. *)
Definition handlePhoneModeRequest (requested : PhoneMode) (s : SysMgr)
  : option PhoneMode * SysMgr :=
  if Tethering_eqb (tethering s) TetheringOn then
    (None, emit (SendAppmgr TetheringPhoneModeChangeProhibitedMessage) s)
  else (Some requested, s).

(** Effects of [CpuStatisticsTimerHandler] on its collaborators. *)
Inductive CpuEvent :=
| CpuTimerRestart          (* cpuStatisticsTimer.restart(timerPeriodInterval) *)
| CpuStatisticsUpdate      (* cpuStatistics->Update() *)
| CpuFrequencyUpdate.      (* powerManager->UpdateCpuFrequency(load) *)

(** [CpuStatisticsTimerHandler] on the flag [cpuStatisticsTimerInit]. *)
Definition CpuStatisticsTimerHandler (cpuStatisticsTimerInit : bool)
  : bool * list CpuEvent :=
  (true, (if cpuStatisticsTimerInit then [] else [CpuTimerRestart])
           ++ [CpuStatisticsUpdate; CpuFrequencyUpdate]).

(** [n] expiries of the CPU statistics timer. *)
Fixpoint cpu_ticks (n : nat) (init : bool) : bool * list CpuEvent :=
  match n with
  | 0 => (init, [])
  | S k =>
      let '(init1, ev1) := CpuStatisticsTimerHandler init in
      let '(init2, ev2) := cpu_ticks k init1 in
      (init2, ev1 ++ ev2)
  end.

(** ** Reading of the claims that is compared with the code *)

(** Effects the destroy pass should have on one service of the registry:
    a whitelisted service is kept; any other one receives the synchronous
    close request, and is killed (deinit, then close) when that fails. *)
Definition destroy_events (closeOk : string -> bool) (wl : list string) (n : string)
  : list Event :=
  if isOnWhitelist wl n then [LogDelayClosing n]
  else RequestExit n :: (if closeOk n then [] else [Deinit n; CloseHandlerCalled n]).

(** Number of close-procedure invocations recorded in a trace: each call of
    [CloseSystemHandler] stops the low-battery timer exactly once, and no
    other code does. *)
Definition close_invocations (tr : list Event) : nat :=
  length (filter (fun e => match e with StopLowBatteryTimer => true | _ => false end) tr).

(** Whether an event is a message sent by the system manager. *)
Definition is_send (e : Event) : bool :=
  match e with
  | SendCloseReason _ _ | SendAppmgr _ | SendRequestPhoneModeForceUpdate => true
  | _ => false
  end.

(** ** General lemmas *)

Lemma SysMgr_eta (s : SysMgr) :
  s = mkSysMgr (servicesList s) (readyForCloseRegister s) (watchdogActive s)
               (lowBatteryTimerActive s) (state s) (updateReason s) (batteryLevel s)
               (batteryState s) (tethering s) (trace s).
Proof. destruct s; reflexivity. Qed.

Lemma broadcast_eq (r : CloseReason) (l : list string) (s : SysMgr) :
  broadcast r l s =
  mkSysMgr (servicesList s) (readyForCloseRegister s ++ l) (watchdogActive s)
           (lowBatteryTimerActive s) (state s) (updateReason s) (batteryLevel s)
           (batteryState s) (tethering s)
           (trace s ++ map (fun n => SendCloseReason n r) l).
Proof.
  revert s; induction l as [|n l IH]; intros s; simpl.
  - rewrite !app_nil_r; apply SysMgr_eta.
  - rewrite IH; simpl; rewrite <- !app_assoc; reflexivity.
Qed.

Lemma CloseSystemHandler_eq (r : CloseReason) (s : SysMgr) :
  CloseSystemHandler r s =
  mkSysMgr (rev (servicesList s)) (readyForCloseRegister s ++ rev (servicesList s)) true
           false (state s) (updateReason s) (batteryLevel s)
           (batteryState s) (tethering s)
           (trace s ++ [StopLowBatteryTimer]
                    ++ map (fun n => SendCloseReason n r) (rev (servicesList s))
                    ++ [StartWatchdog]).
Proof.
  unfold CloseSystemHandler, preCloseRoutine; simpl.
  rewrite broadcast_eq; unfold emit, with_watchdog; simpl.
  rewrite <- !app_assoc; reflexivity.
Qed.

Lemma destroy_loop_eq (closeOk : string -> bool) (wl l : list string) (s : SysMgr) :
  destroy_loop closeOk wl l s =
  (filter (isOnWhitelist wl) l,
   mkSysMgr (servicesList s) (readyForCloseRegister s) (watchdogActive s)
            (lowBatteryTimerActive s) (state s) (updateReason s) (batteryLevel s)
            (batteryState s) (tethering s)
            (trace s ++ flat_map (destroy_events closeOk wl) l)).
Proof.
  revert s; induction l as [|n l IH]; intros s; simpl.
  - rewrite app_nil_r, <- SysMgr_eta; reflexivity.
  - unfold destroy_events at 1.
    destruct (isOnWhitelist wl n).
    + rewrite IH; simpl; rewrite <- app_assoc; reflexivity.
    + unfold RequestServiceClose, kill.
      destruct (closeOk n); rewrite IH; simpl; rewrite <- !app_assoc; reflexivity.
Qed.

Lemma DestroyServices_eq (closeOk : string -> bool) (wl : list string) (s : SysMgr) :
  DestroyServices closeOk wl s =
  mkSysMgr (filter (isOnWhitelist wl) (servicesList s)) (readyForCloseRegister s)
           (watchdogActive s) (lowBatteryTimerActive s) (state s) (updateReason s)
           (batteryLevel s) (batteryState s) (tethering s)
           (trace s ++ flat_map (destroy_events closeOk wl) (servicesList s)).
Proof. unfold DestroyServices; rewrite destroy_loop_eq; reflexivity. Qed.

Lemma fold_log_eq (l : list string) (s : SysMgr) :
  fold_left (fun acc name => emit (LogNotReported name) acc) l s =
  mkSysMgr (servicesList s) (readyForCloseRegister s) (watchdogActive s)
           (lowBatteryTimerActive s) (state s) (updateReason s) (batteryLevel s)
           (batteryState s) (tethering s) (trace s ++ map LogNotReported l).
Proof.
  revert s; induction l as [|n l IH]; intros s; simpl.
  - rewrite app_nil_r; apply SysMgr_eta.
  - rewrite IH; simpl; rewrite <- app_assoc; reflexivity.
Qed.

Lemma CloseServices_eq (closeOk : string -> bool) (s : SysMgr) :
  CloseServices closeOk s =
  mkSysMgr (filter (isOnWhitelist Whitelist.regularClose) (servicesList s)) []
           (watchdogActive s) (lowBatteryTimerActive s) Shutdown (updateReason s)
           (batteryLevel s) (batteryState s) (tethering s)
           (trace s ++ map LogNotReported (readyForCloseRegister s)
                    ++ flat_map (destroy_events closeOk Whitelist.regularClose) (servicesList s)
                    ++ [SetState Shutdown]).
Proof.
  unfold CloseServices; rewrite fold_log_eq; simpl.
  rewrite DestroyServices_eq; unfold set, emit, with_state; simpl.
  rewrite <- !app_assoc; reflexivity.
Qed.

(** ** Concrete runs *)

Example start_then_close_ABC :
  match StartSystemServices (fun _ => true) ["A"; "B"; "C"]
          (mkSysMgr [] [] false false Running UpdateReasonUpdate Normal Charging
                    TetheringOff []) with
  | Some s1 => trace (CloseSystemHandler RegularPowerDown s1)
               = [StopLowBatteryTimer; SendCloseReason "C" RegularPowerDown;
                  SendCloseReason "B" RegularPowerDown; SendCloseReason "A" RegularPowerDown;
                  StartWatchdog]
  | None => False
  end.
Proof. reflexivity. Qed.

Example destroy_regular_close_example :
  servicesList (DestroyServices (fun _ => true) Whitelist.regularClose
                  (mkSysMgr ["X"; Name.evt_manager; "Y"] [] false false Running
                            UpdateReasonUpdate Normal Charging TetheringOff []))
  = [Name.evt_manager].
Proof. reflexivity. Qed.

(** ** Claims *)

(** C1: [CloseSystemHandler] reverses the service registry in place and
    then, for every registered service in that reversed order, sends the
    close-reason notification and appends the name to the pending register;
    services started in order [A; B; C] are notified in order [C; B; A]. *)
Theorem close_broadcast_reverse_order (r : CloseReason) (s : SysMgr) :
  servicesList (CloseSystemHandler r s) = rev (servicesList s) /\
  readyForCloseRegister (CloseSystemHandler r s)
    = readyForCloseRegister s ++ rev (servicesList s) /\
  trace (CloseSystemHandler r s)
    = trace s ++ [StopLowBatteryTimer]
              ++ map (fun n => SendCloseReason n r) (rev (servicesList s))
              ++ [StartWatchdog] /\
  match StartSystemServices (fun _ => true) ["A"; "B"; "C"] (with_services [] s) with
  | Some s1 => trace (CloseSystemHandler r s1)
               = trace s1 ++ [StopLowBatteryTimer; SendCloseReason "C" r;
                              SendCloseReason "B" r; SendCloseReason "A" r; StartWatchdog]
  | None => False
  end.
Proof.
  rewrite !CloseSystemHandler_eq; simpl.
  split; [reflexivity|]. split; [reflexivity|]. split; [reflexivity|].
  rewrite <- !app_assoc; reflexivity.
Qed.

(** C2: for each of the update, restore and regular-close rounds, the
    destroy pass leaves exactly the whitelisted services registered and
    removes every other one; each removed service first gets the synchronous
    close request and, when that request does not succeed, is killed
    (deinit then close) instead of being asked again. *)
Theorem destroy_pass_whitelist (closeOk : string -> bool) (r : Round) (s : SysMgr) :
  (forall n, In n (servicesList (DestroyServices closeOk (whitelist_of r) s))
             <-> In n (servicesList s) /\ isOnWhitelist (whitelist_of r) n = true) /\
  servicesList (DestroyServices closeOk (whitelist_of r) s)
    = filter (isOnWhitelist (whitelist_of r)) (servicesList s) /\
  trace (DestroyServices closeOk (whitelist_of r) s)
    = trace s ++ flat_map (destroy_events closeOk (whitelist_of r)) (servicesList s).
Proof.
  rewrite DestroyServices_eq; simpl.
  split; [|split; reflexivity].
  intros n; apply filter_In.
Qed.

(** C10: every call of [CloseSystemHandler] stops the low-battery
    shutdown-delay timer first, before any close-reason notification, and an
    expiry of that timer delivered afterwards does nothing. *)
Theorem close_stops_low_battery_timer (r : CloseReason) (s : SysMgr) :
  lowBatteryTimerActive (CloseSystemHandler r s) = false /\
  trace (CloseSystemHandler r s)
    = trace s ++ StopLowBatteryTimer
              :: map (fun n => SendCloseReason n r) (rev (servicesList s))
              ++ [StartWatchdog] /\
  (forall closeOk from,
     Execute closeOk (envelope from LowBatteryShutdownDelayExpired) (CloseSystemHandler r s)
     = CloseSystemHandler r s).
Proof.
  rewrite !CloseSystemHandler_eq; simpl.
  split; [reflexivity|]. split; [reflexivity|].
  intros; reflexivity.
Qed.

Lemma filter_all_true {A} (f : A -> bool) (l : list A) :
  (forall x, In x l -> f x = true) -> filter f l = l.
Proof.
  induction l as [|a l IH]; intros H; simpl; [reflexivity|].
  rewrite (H a (or_introl eq_refl)), IH; [reflexivity|].
  intros x Hx; apply H; right; exact Hx.
Qed.

Lemma with_register_same (s : SysMgr) :
  with_register (readyForCloseRegister s) s = s.
Proof. destruct s; reflexivity. Qed.

Lemma ack_not_pending_noop (closeOk : string -> bool) (from : string) (s : SysMgr) :
  ~ In from (readyForCloseRegister s) -> readyToCloseHandler closeOk from s = s.
Proof.
  intros H; unfold readyToCloseHandler.
  rewrite filter_all_true.
  - rewrite with_register_same.
    destruct (readyForCloseRegister s) eqn:E; simpl; [reflexivity|].
    destruct (watchdogActive s); reflexivity.
  - intros x Hx; apply negb_true_iff, String.eqb_neq; intros ->; contradiction.
Qed.

Lemma not_in_filter_neq (x : string) (l : list string) :
  ~ In x (filter (fun n => negb (String.eqb n x)) l).
Proof.
  intros Hin; apply filter_In in Hin as [_ Hb].
  rewrite String.eqb_refl in Hb; discriminate.
Qed.

Definition sC3 : SysMgr :=
  mkSysMgr ["A"; "B"] [] false false Running UpdateReasonUpdate Normal Charging TetheringOff [].

Definition closeCmd : Envelope :=
  envelope Name.appmgr (SystemManagerCmd true CodeCloseSystem RegularPowerDown UpdateReasonUpdate).

Definition closeOk_all_but_B : string -> bool := fun n => negb (String.eqb n "B").

(** C3 (refuted as stated): services [A; B] are closed, A acknowledges, B
    does not.  When the watchdog fires, B is still pending, yet the destroy
    pass that follows sends B the close request and, as B does not answer,
    kills it: the non-acknowledging service is not left out of the destroy
    pass. *)
Lemma watchdog_expiry_counterexample :
  readyForCloseRegister
    (snd (running_loop closeOk_all_but_B [closeCmd; envelope "A" ReadyToCloseMessage] sC3))
    = ["B"] /\
  trace (snd (running_loop closeOk_all_but_B
                [closeCmd; envelope "A" ReadyToCloseMessage;
                 envelope Name.system_manager PreShutdownTimerExpired] sC3))
    = [StopLowBatteryTimer; SendCloseReason "B" RegularPowerDown;
       SendCloseReason "A" RegularPowerDown; StartWatchdog;
       LogNotReported "B"; RequestExit "B"; Deinit "B"; CloseHandlerCalled "B";
       RequestExit "A"; SetState Shutdown].
Proof. split; vm_compute; reflexivity. Qed.

(** C3 (as the code does it): when the pre-shutdown watchdog fires, every
    name still pending is logged as not reported and the register is
    cleared; the destroy pass then runs over the whole service registry,
    acknowledged or not, with the regular-close whitelist (close request,
    kill on failure, removal), and the state becomes [Shutdown]. *)
Theorem watchdog_expiry_clears_register (closeOk : string -> bool) (from : string) (s : SysMgr)
  (Hwd : watchdogActive s = true) :
  Execute closeOk (envelope from PreShutdownTimerExpired) s = CloseServices closeOk s /\
  readyForCloseRegister (CloseServices closeOk s) = [] /\
  servicesList (CloseServices closeOk s)
    = filter (isOnWhitelist Whitelist.regularClose) (servicesList s) /\
  state (CloseServices closeOk s) = Shutdown /\
  trace (CloseServices closeOk s)
    = trace s ++ map LogNotReported (readyForCloseRegister s)
              ++ flat_map (destroy_events closeOk Whitelist.regularClose) (servicesList s)
              ++ [SetState Shutdown].
Proof.
  split; [unfold Execute; cbn [body]; rewrite Hwd; reflexivity|].
  rewrite CloseServices_eq; simpl; repeat split.
Qed.

Lemma watchdog_expiry_clears_register_witness :
  watchdogActive (snd (running_loop closeOk_all_but_B
                         [closeCmd; envelope "A" ReadyToCloseMessage] sC3)) = true /\
  state (CloseServices closeOk_all_but_B
           (snd (running_loop closeOk_all_but_B
                   [closeCmd; envelope "A" ReadyToCloseMessage] sC3))) = Shutdown.
Proof.
  split; [vm_compute; reflexivity|].
  apply (watchdog_expiry_clears_register closeOk_all_but_B Name.system_manager).
  vm_compute; reflexivity.
Defined.

Lemma ack_active_eq (closeOk : string -> bool) (from : string) (s : SysMgr) :
  readyForCloseRegister s <> [] -> watchdogActive s = true ->
  readyToCloseHandler closeOk from s =
  match filter (fun n => negb (String.eqb n from)) (readyForCloseRegister s) with
  | [] => CloseServices closeOk
            (emit StopWatchdog (with_watchdog false
               (with_register [] s)))
  | f => with_register f s
  end.
Proof.
  intros Hne W; unfold readyToCloseHandler.
  destruct (readyForCloseRegister s) as [|x l] eqn:E; [congruence|].
  rewrite W; cbn [negb andb].
  remember (filter _ (x :: l)) as f eqn:F.
  destruct f; reflexivity.
Qed.

Lemma ack_inactive_eq (closeOk : string -> bool) (from : string) (s : SysMgr) :
  readyForCloseRegister s = [] \/ watchdogActive s = false ->
  readyToCloseHandler closeOk from s = s.
Proof.
  intros [E|W]; unfold readyToCloseHandler.
  - rewrite E; reflexivity.
  - rewrite W, andb_false_r; reflexivity.
Qed.

Definition sAck : SysMgr :=
  mkSysMgr ["B"; "A"] ["B"; "A"] true false Running UpdateReasonUpdate Normal Charging
           TetheringOff [].

(** C4: an acknowledgment handled during a round (register non-empty,
    watchdog running) removes exactly the sender's name from the pending
    register; an acknowledgment for a name that is not pending changes
    nothing, so handling the same acknowledgment twice is the same as
    handling it once; and when the acknowledgment empties the register the
    watchdog is stopped and [CloseServices] (the destroy phase) runs. *)
Theorem ack_removes_sender_once (closeOk : string -> bool) (from : string) (s : SysMgr) :
  (readyForCloseRegister s <> [] -> watchdogActive s = true ->
   readyForCloseRegister (readyToCloseHandler closeOk from s)
     = filter (fun n => negb (String.eqb n from)) (readyForCloseRegister s)) /\
  (~ In from (readyForCloseRegister s) -> readyToCloseHandler closeOk from s = s) /\
  readyToCloseHandler closeOk from (readyToCloseHandler closeOk from s)
    = readyToCloseHandler closeOk from s /\
  (readyForCloseRegister s <> [] -> watchdogActive s = true ->
   filter (fun n => negb (String.eqb n from)) (readyForCloseRegister s) = [] ->
   readyToCloseHandler closeOk from s
     = CloseServices closeOk (emit StopWatchdog (with_watchdog false (with_register [] s)))).
Proof.
  split; [|split; [|split]].
  - intros Hne W; rewrite ack_active_eq by assumption.
    destruct (filter (fun n => negb (String.eqb n from)) (readyForCloseRegister s)) eqn:F.
    + rewrite CloseServices_eq; reflexivity.
    + reflexivity.
  - apply ack_not_pending_noop.
  - destruct (readyForCloseRegister s) as [|x l] eqn:E.
    + rewrite !(ack_inactive_eq closeOk from s (or_introl E)); reflexivity.
    + destruct (watchdogActive s) eqn:W.
      * rewrite (ack_active_eq closeOk from s) by (rewrite ?E, ?W; easy).
        destruct (filter (fun n => negb (String.eqb n from)) (readyForCloseRegister s)) as [|y m] eqn:F.
        -- apply ack_inactive_eq; left; rewrite CloseServices_eq; reflexivity.
        -- apply ack_not_pending_noop; cbn [readyForCloseRegister with_register].
           rewrite <- F; apply not_in_filter_neq.
      * rewrite !(ack_inactive_eq closeOk from s (or_intror W)); reflexivity.
  - intros Hne W F; rewrite ack_active_eq by assumption; rewrite F; reflexivity.
Qed.

Lemma ack_removes_sender_once_witness :
  readyForCloseRegister (readyToCloseHandler (fun _ => true) "A" sAck) = ["B"] /\
  state (readyToCloseHandler (fun _ => true) "B"
           (readyToCloseHandler (fun _ => true) "A" sAck)) = Shutdown.
Proof.
  split.
  - rewrite (proj1 (ack_removes_sender_once (fun _ => true) "A" sAck));
      [reflexivity | discriminate | reflexivity].
  - set (s1 := readyToCloseHandler (fun _ => true) "A" sAck).
    rewrite (proj2 (proj2 (proj2 (ack_removes_sender_once (fun _ => true) "B" s1))));
      [vm_compute; reflexivity | vm_compute; discriminate
      | vm_compute; reflexivity | vm_compute; reflexivity].
Defined.

Lemma running_loop_stopped (closeOk : string -> bool) (mb : list Envelope) (s : SysMgr) :
  State_eqb (state s) Running = false -> running_loop closeOk mb s = (mb, s).
Proof. intros H; destruct mb; simpl; rewrite H; reflexivity. Qed.

Lemma running_loop_cons (closeOk : string -> bool) (m : Envelope) (mb : list Envelope)
  (s : SysMgr) :
  state s = Running -> running_loop closeOk (m :: mb) s = running_loop closeOk mb (Execute closeOk m s).
Proof. intros H; simpl; rewrite H; reflexivity. Qed.

Lemma Execute_close_cmd (closeOk : string -> bool) (from : string) (r : CloseReason)
  (u : UpdateReason) (s : SysMgr) :
  Execute closeOk (envelope from (SystemManagerCmd true CodeCloseSystem r u)) s
  = CloseSystemHandler r s.
Proof. reflexivity. Qed.

Lemma Execute_watchdog (closeOk : string -> bool) (from : string) (s : SysMgr) :
  watchdogActive s = true ->
  Execute closeOk (envelope from PreShutdownTimerExpired) s = CloseServices closeOk s.
Proof. intros H; unfold Execute; cbn [body]; rewrite H; reflexivity. Qed.

Lemma In_rev_iff {A} (x : A) (l : list A) : In x (rev l) <-> In x l.
Proof. split; [apply in_rev | intros H; apply -> in_rev; exact H]. Qed.

(** Acknowledgments from every pending name, handled while [Running],
    complete the round and lead to [Shutdown]. *)
Lemma acks_complete_round (closeOk : string -> bool) (acks : list string) :
  forall t, state t = Running -> watchdogActive t = true ->
  readyForCloseRegister t <> [] ->
  (forall n, In n (readyForCloseRegister t) -> In n acks) ->
  state (snd (running_loop closeOk
                (map (fun a => envelope a ReadyToCloseMessage) acks) t)) = Shutdown.
Proof.
  induction acks as [|a acks IH]; intros t Hrun W Hne Hcov.
  - destruct (readyForCloseRegister t) as [|x l] eqn:E; [congruence|].
    destruct (Hcov x (or_introl eq_refl)).
  - cbn [map running_loop]; rewrite Hrun; cbn [State_eqb].
    unfold Execute; cbn [body sender].
    rewrite (ack_active_eq closeOk a t Hne W).
    destruct (filter (fun n => negb (String.eqb n a)) (readyForCloseRegister t))
      as [|y m] eqn:F.
    + rewrite running_loop_stopped; rewrite CloseServices_eq; reflexivity.
    + apply IH; try assumption; try discriminate.
      intros n Hn; rewrite <- F in Hn; apply filter_In in Hn as [Hin Hb].
      destruct (Hcov n Hin) as [->|H]; [|exact H].
      rewrite String.eqb_refl in Hb; discriminate.
Qed.

Lemma state_set (st : State) (s : SysMgr) : state (set st s) = st.
Proof. reflexivity. Qed.

(** C5: from [Running], a close command followed by the completion of the
    close round (watchdog expiry, or acknowledgments from every pending
    name) reaches [Shutdown]; in [Shutdown], with no pending
    acknowledgment, a discharging battery gives [ShutdownReady] (both in the
    battery-status handler and in the shutdown loop); in [Shutdown], a key
    event delivered by the event manager gives [Reboot]. *)
Theorem lifecycle_transitions (closeOk : string -> bool) (s t : SysMgr)
  (r : CloseReason) (u : UpdateReason) (from : string) (acks : list string)
  (Hrun : state s = Running) :
  state (snd (running_loop closeOk
                [envelope from (SystemManagerCmd true CodeCloseSystem r u);
                 envelope Name.system_manager PreShutdownTimerExpired] s)) = Shutdown /\
  (readyForCloseRegister s ++ servicesList s <> [] ->
   (forall n, In n (readyForCloseRegister s ++ servicesList s) -> In n acks) ->
   state (snd (running_loop closeOk
                 (envelope from (SystemManagerCmd true CodeCloseSystem r u)
                  :: map (fun a => envelope a ReadyToCloseMessage) acks) s)) = Shutdown) /\
  (state t = Shutdown -> readyForCloseRegister t = [] -> batteryState t = Discharging ->
   state (Execute closeOk (envelope Name.evt_manager BatteryStatusChangeMessage) t)
     = ShutdownReady /\
   (forall mb, state (snd (shutdown_loop closeOk mb t)) = ShutdownReady)) /\
  (state t = Shutdown ->
   state (Execute closeOk (envelope Name.evt_manager KbdMessage) t) = Reboot /\
   (batteryState t <> Discharging ->
    state (snd (shutdown_loop closeOk [envelope Name.evt_manager KbdMessage] t)) = Reboot)).
Proof.
  split; [|split; [|split]].
  - rewrite running_loop_cons, Execute_close_cmd by exact Hrun.
    rewrite running_loop_cons by (rewrite CloseSystemHandler_eq; exact Hrun).
    rewrite Execute_watchdog by (rewrite CloseSystemHandler_eq; reflexivity).
    rewrite running_loop_stopped; rewrite CloseServices_eq; reflexivity.
  - intros Hne Hcov.
    rewrite running_loop_cons, Execute_close_cmd by exact Hrun.
    apply acks_complete_round.
    + rewrite CloseSystemHandler_eq; exact Hrun.
    + rewrite CloseSystemHandler_eq; reflexivity.
    + rewrite CloseSystemHandler_eq; cbn [readyForCloseRegister].
      intros E; apply Hne.
      apply app_eq_nil in E as [E1 E2]; rewrite E1.
      destruct (servicesList s); [reflexivity|].
      simpl in E2; apply app_eq_nil in E2 as [_ E3]; discriminate.
    + rewrite CloseSystemHandler_eq; cbn [readyForCloseRegister].
      intros n Hn; apply Hcov.
      apply in_app_or in Hn as [Hn|Hn]; apply in_or_app; [left|right]; auto.
      apply In_rev_iff; exact Hn.
  - intros Ht _ Hb; split.
    + unfold Execute; cbn [body]; rewrite Ht, Hb; reflexivity.
    + intros mb; destruct mb; cbn [shutdown_loop]; rewrite Ht, Hb; reflexivity.
  - intros Ht; split.
    + unfold Execute; cbn [body]; rewrite Ht; reflexivity.
    + intros Hb; cbn [shutdown_loop]; rewrite Ht; cbn [State_eqb].
      destruct (batteryState t) eqn:B; [contradiction| | |];
        cbn [is_discharging sender]; rewrite String.eqb_refl;
        unfold Execute; cbn [body]; rewrite Ht; reflexivity.
Qed.

Definition sShutdownDischarging : SysMgr :=
  mkSysMgr [Name.evt_manager] [] true false Shutdown UpdateReasonUpdate LSShutdown
           Discharging TetheringOff [].

Definition sShutdownCharging : SysMgr :=
  mkSysMgr [Name.evt_manager] [] true false Shutdown UpdateReasonUpdate LSShutdown
           Charging TetheringOff [].

Lemma lifecycle_transitions_witness :
  state sC3 = Running /\
  state (snd (running_loop (fun _ => true)
                (closeCmd :: map (fun a => envelope a ReadyToCloseMessage) ["A"; "B"]) sC3))
    = Shutdown /\
  state (Execute (fun _ => true) (envelope Name.evt_manager BatteryStatusChangeMessage)
           sShutdownDischarging) = ShutdownReady /\
  state (snd (shutdown_loop (fun _ => true) [envelope Name.evt_manager KbdMessage]
                sShutdownCharging)) = Reboot.
Proof.
  split; [reflexivity|]. split; [|split].
  - apply (proj1 (proj2 (lifecycle_transitions (fun _ => true) sC3 sC3 RegularPowerDown
                           UpdateReasonUpdate Name.appmgr ["A"; "B"] eq_refl))).
    + discriminate.
    + intros n Hn; exact Hn.
  - apply (proj1 (proj1 (proj2 (proj2 (lifecycle_transitions (fun _ => true) sC3
                                         sShutdownDischarging RegularPowerDown
                                         UpdateReasonUpdate Name.appmgr [] eq_refl)))
                   eq_refl eq_refl eq_refl)).
  - apply (proj2 (proj2 (proj2 (proj2 (lifecycle_transitions (fun _ => true) sC3
                                         sShutdownCharging RegularPowerDown
                                         UpdateReasonUpdate Name.appmgr [] eq_refl)))
                   eq_refl)).
    discriminate.
Defined.

Definition sReboot : SysMgr :=
  mkSysMgr ["A"] [] false false Running UpdateReasonUpdate Normal Charging TetheringOff [].

Definition rebootCmd : Envelope :=
  envelope Name.appmgr (SystemManagerCmd true CodeReboot CRReboot UpdateReasonUpdate).

(** C6 (refuted as stated): a reboot request handled in [Running] with one
    registered service "A" leaves the manager in state [Reboot] while "A" is
    still pending acknowledgment and still registered, with no close request
    sent to it; the main loop then leaves the [Running] loop, so A's
    acknowledgment is never handled, and the whole run ends in a reboot with
    no destroy pass for "A". *)
Lemma reboot_before_round_counterexample :
  running_loop (fun _ => true) [rebootCmd; envelope "A" ReadyToCloseMessage] sReboot
  = ([envelope "A" ReadyToCloseMessage],
     mkSysMgr ["A"] ["A"] true false Reboot UpdateReasonUpdate Normal Charging TetheringOff
              [StopLowBatteryTimer; SendCloseReason "A" CRReboot; StartWatchdog;
               SetState Reboot]) /\
  Run (fun _ => true)
      [rebootCmd; envelope "A" ReadyToCloseMessage;
       envelope Name.system_manager PreShutdownTimerExpired] sReboot
  = Some (PowerReboot,
          mkSysMgr ["A"] ["A"] true false Reboot UpdateReasonUpdate Normal Charging
                   TetheringOff
                   [StopLowBatteryTimer; SendCloseReason "A" CRReboot; StartWatchdog;
                    SetState Reboot; RequestExit Name.evt_manager]).
Proof. split; vm_compute; reflexivity. Qed.

(** C6 (as the code does it): a [Reboot] or [RebootToUpdate] command handled
    in [Running], whatever close reason the request carries (the handler
    ignores it and broadcasts [CRReboot]), calls the close procedure
    (low-battery timer stopped, registry reversed, close reasons broadcast and names made pending,
    watchdog started) and then sets the new state at once, recording the
    update reason; it does not wait for acknowledgments or the destroy pass,
    and the [Running] loop stops right after it, leaving the rest of the
    mailbox unhandled. *)
Theorem reboot_sets_state_after_broadcast (closeOk : string -> bool) (from : string)
  (code : Code) (r : CloseReason) (u : UpdateReason) (mb : list Envelope) (s : SysMgr)
  (Hrun : state s = Running)
  (Hcode : code = CodeReboot \/ code = CodeRebootToUpdate) :
  let target := match code with CodeReboot => Reboot | _ => RebootToUpdate end in
  let s1 := Execute closeOk (envelope from (SystemManagerCmd true code r u)) s in
  state s1 = target /\
  servicesList s1 = rev (servicesList s) /\
  readyForCloseRegister s1 = readyForCloseRegister s ++ rev (servicesList s) /\
  watchdogActive s1 = true /\
  updateReason s1 = (match code with CodeReboot => updateReason s | _ => u end) /\
  trace s1 = trace s ++ [StopLowBatteryTimer]
                     ++ map (fun n => SendCloseReason n CRReboot) (rev (servicesList s))
                     ++ [StartWatchdog; SetState target] /\
  running_loop closeOk (envelope from (SystemManagerCmd true code r u) :: mb) s
    = (mb, s1).
Proof.
  destruct Hcode as [-> | ->]; cbv zeta;
    (rewrite running_loop_cons, running_loop_stopped by
        (try exact Hrun; unfold Execute, RebootHandler; cbn [body]; reflexivity));
    unfold Execute, RebootHandler; cbn [body];
    rewrite CloseSystemHandler_eq; cbn;
    repeat split; try reflexivity;
    repeat (rewrite <- app_assoc || rewrite <- app_comm_cons); reflexivity.
Qed.

Lemma reboot_sets_state_after_broadcast_witness :
  state (Execute (fun _ => true)
           (envelope Name.appmgr
              (SystemManagerCmd true CodeReboot RegularPowerDown UpdateReasonUpdate))
           sReboot) = Reboot /\
  readyForCloseRegister
    (Execute (fun _ => true)
       (envelope Name.appmgr
          (SystemManagerCmd true CodeReboot RegularPowerDown UpdateReasonUpdate))
       sReboot) = ["A"].
Proof.
  destruct (reboot_sets_state_after_broadcast (fun _ => true) Name.appmgr CodeReboot
              RegularPowerDown UpdateReasonUpdate [] sReboot eq_refl (or_introl eq_refl))
    as [H1 [_ [H3 _]]].
  split; [exact H1 | rewrite H3; reflexivity].
Defined.

(** ** Which states the handlers can write *)

Lemma state_CloseSystemHandler (r : CloseReason) (s : SysMgr) :
  state (CloseSystemHandler r s) = state s.
Proof. rewrite CloseSystemHandler_eq; reflexivity. Qed.

Lemma state_DestroyServices (closeOk : string -> bool) (wl : list string) (s : SysMgr) :
  state (DestroyServices closeOk wl s) = state s.
Proof. rewrite DestroyServices_eq; reflexivity. Qed.

Lemma state_CloseServices (closeOk : string -> bool) (s : SysMgr) :
  state (CloseServices closeOk s) = Shutdown.
Proof. rewrite CloseServices_eq; reflexivity. Qed.

Lemma state_readyToCloseHandler (closeOk : string -> bool) (from : string) (s : SysMgr) :
  state (readyToCloseHandler closeOk from s) = state s \/
  state (readyToCloseHandler closeOk from s) = Shutdown.
Proof.
  destruct (readyForCloseRegister s) eqn:E.
  - left; rewrite ack_inactive_eq by (left; exact E); reflexivity.
  - destruct (watchdogActive s) eqn:W.
    + rewrite ack_active_eq by (rewrite ?E; easy).
      destruct (filter _ _); [right; apply state_CloseServices | left; reflexivity].
    + left; rewrite ack_inactive_eq by (right; exact W); reflexivity.
Qed.

(** The states written by [set] anywhere in the handlers. *)
Definition written_state (st : State) : Prop :=
  match st with Shutdown | ShutdownReady | Reboot | RebootToUpdate => True | _ => False end.

Lemma Execute_state (closeOk : string -> bool) (e : Envelope) (s : SysMgr) :
  state (Execute closeOk e s) = state s \/ written_state (state (Execute closeOk e s)).
Proof.
  destruct e as [from b]; unfold Execute; cbn [body sender].
  destruct b.
  - destruct onRequestsChannel; [|left; reflexivity].
    destruct type.
    + left; apply state_CloseSystemHandler.
    + left; unfold UpdateSystemHandler; rewrite state_DestroyServices; reflexivity.
    + left; unfold RestoreSystemHandler; rewrite state_DestroyServices; reflexivity.
    + right; exact I.
    + right; exact I.
    + left; reflexivity.
  - destruct (State_eqb (state s) Shutdown && is_discharging (batteryState s));
      [right; exact I | left; reflexivity].
  - destruct (State_eqb (state s) Shutdown); [right; exact I | left; reflexivity].
  - left; apply state_CloseSystemHandler.
  - left; unfold batteryStateChangeHandler.
    destruct (batteryLevel s); try reflexivity; apply state_CloseSystemHandler.
  - left; unfold cellularCheckIfStartAllowedHandler; destruct (batteryLevel s); reflexivity.
  - left; apply state_CloseSystemHandler.
  - destruct (state_readyToCloseHandler closeOk from s) as [H|H];
      [left; exact H | right; rewrite H; exact I].
  - left; unfold checkIfStartAllowedHandler.
    destruct (batteryLevel s); try reflexivity.
    destruct (lowBatteryTimerActive s); reflexivity.
  - left; unfold handleTetheringStateRequest.
    destruct (batteryLevel s); try reflexivity.
    destruct t; [|reflexivity].
    unfold setTetheringMode; cbn.
    destruct (negb _); reflexivity.
  - left; reflexivity.
  - destruct (watchdogActive s); [right; rewrite state_CloseServices; exact I | left; reflexivity].
  - destruct (lowBatteryTimerActive s); [left; apply state_CloseSystemHandler | left; reflexivity].
  - left; reflexivity.
Qed.

(** States the program can be in: [Suspend] is never written. *)
Definition reachable_state (st : State) : Prop :=
  match st with Suspend => False | _ => True end.

(** States after the [Running] loop has been left. *)
Definition left_running (st : State) : Prop :=
  match st with Running | Suspend => False | _ => True end.

Lemma running_loop_reachable (closeOk : string -> bool) (mb : list Envelope) :
  forall s, reachable_state (state s) -> reachable_state (state (snd (running_loop closeOk mb s))).
Proof.
  induction mb as [|m mb IH]; intros s H; simpl;
    destruct (State_eqb (state s) Running); try exact H.
  apply IH.
  destruct (Execute_state closeOk m s) as [E|E]; rewrite ?E; [exact H|].
  destruct (state (Execute closeOk m s)); simpl in *; tauto.
Qed.

Lemma Execute_left_running (closeOk : string -> bool) (m : Envelope) (s : SysMgr) :
  left_running (state s) -> left_running (state (Execute closeOk m s)).
Proof.
  intros H; destruct (Execute_state closeOk m s) as [E|E]; rewrite ?E; [exact H|].
  destruct (state (Execute closeOk m s)); simpl in *; tauto.
Qed.

Lemma shutdown_loop_left_running (closeOk : string -> bool) (mb : list Envelope) :
  forall s, left_running (state s) -> left_running (state (snd (shutdown_loop closeOk mb s))).
Proof.
  induction mb as [|m mb IH]; intros s H; simpl;
    destruct (State_eqb (state s) Shutdown); try exact H;
    destruct (is_discharging (batteryState s)); try exact I; try exact H.
  destruct (String.eqb (sender m) Name.evt_manager).
  - apply IH, Execute_left_running, H.
  - apply IH; exact H.
Qed.

Lemma state_DestroySystemService (closeOk : string -> bool) (name : string) (s : SysMgr) :
  state (snd (DestroySystemService closeOk name s)) = state s.
Proof.
  unfold DestroySystemService, RequestServiceClose; cbn [fst snd].
  destruct (closeOk name); [|reflexivity].
  destruct (existsb _ _); reflexivity.
Qed.

(** C7: the terminal [switch] of [Run] aborts ([exit(1)]) exactly when the
    state is none of [ShutdownReady], [Reboot], [RebootToUpdate]; and
    starting from [Running], whatever the mailbox holds, when both loops of
    [Run] have been left the switch never takes the abort branch. *)
Theorem terminal_switch_never_aborts (closeOk : string -> bool) (mb : list Envelope)
  (s : SysMgr) (Hinit : state s = Running) :
  (forall t, terminal_switch t = Exit1 <->
             ~ In (state t) [ShutdownReady; Reboot; RebootToUpdate]) /\
  (forall a s', Run closeOk mb s = Some (a, s') -> a <> Exit1).
Proof.
  split.
  - intros t; unfold terminal_switch.
    destruct (state t); simpl; split; intros H;
      first [ reflexivity | discriminate | intuition discriminate
            | exfalso; apply H; auto ].
  - intros a s' HR; unfold Run in HR.
    destruct (running_loop closeOk mb s) as [mb1 s1] eqn:R1.
    destruct (State_eqb (state s1) Running) eqn:E1; [discriminate|].
    destruct (shutdown_loop closeOk mb1 s1) as [mb2 s2] eqn:R2.
    destruct (State_eqb (state s2) Shutdown) eqn:E2; [discriminate|].
    destruct (DestroySystemService closeOk Name.evt_manager s2) as [b s3] eqn:R3.
    injection HR as <- <-.
    assert (H1 : reachable_state (state s1)).
    { change s1 with (snd (mb1, s1)); rewrite <- R1.
      apply running_loop_reachable; rewrite Hinit; exact I. }
    assert (H1' : left_running (state s1)).
    { destruct (state s1); simpl in *; try discriminate; tauto. }
    assert (H2 : left_running (state s2)).
    { change s2 with (snd (mb2, s2)); rewrite <- R2.
      apply shutdown_loop_left_running; exact H1'. }
    assert (H3 : state s3 = state s2).
    { change s3 with (snd (b, s3)); rewrite <- R3; apply state_DestroySystemService. }
    unfold terminal_switch; rewrite H3.
    destruct (state s2); simpl in *; try discriminate; tauto.
Qed.

Lemma terminal_switch_never_aborts_witness :
  state sReboot = Running /\
  Run (fun _ => true) [rebootCmd] sReboot <> None /\
  (forall a s', Run (fun _ => true) [rebootCmd] sReboot = Some (a, s') -> a <> Exit1).
Proof.
  split; [reflexivity|]. split; [vm_compute; discriminate|].
  exact (proj2 (terminal_switch_never_aborts (fun _ => true) [rebootCmd] sReboot eq_refl)).
Defined.

(** ** Battery policy *)

Lemma close_invocations_app (l1 l2 : list Event) :
  close_invocations (l1 ++ l2) = close_invocations l1 + close_invocations l2.
Proof. unfold close_invocations; rewrite filter_app, length_app; reflexivity. Qed.

Lemma close_invocations_broadcast (r : CloseReason) (l : list string) :
  close_invocations (map (fun n => SendCloseReason n r) l) = 0.
Proof. induction l as [|n l IH]; [reflexivity | exact IH]. Qed.

Lemma close_invocations_CloseSystemHandler (r : CloseReason) (s : SysMgr) :
  close_invocations (trace (CloseSystemHandler r s)) = close_invocations (trace s) + 1.
Proof.
  rewrite CloseSystemHandler_eq; cbn [trace].
  rewrite !close_invocations_app, close_invocations_broadcast.
  change (close_invocations [StopLowBatteryTimer]) with 1.
  change (close_invocations [StartWatchdog]) with 0; lia.
Qed.

Definition sLowBattery : SysMgr :=
  mkSysMgr ["A"] [] false false Running UpdateReasonUpdate LSShutdown Discharging
           TetheringOff [].

Definition batteryTick : Envelope := envelope Name.evt_manager BatteryStateChangeMessage.

(** C8 (refuted as stated): with the level already at [Shutdown], two
    battery-state-change messages in a row start the close procedure twice. *)
Lemma battery_shutdown_repeat_counterexample :
  close_invocations (trace (snd (running_loop (fun _ => true) [batteryTick; batteryTick]
                                   sLowBattery))) = 2 /\
  trace (snd (running_loop (fun _ => true) [batteryTick; batteryTick] sLowBattery))
  = [StopLowBatteryTimer; SendCloseReason "A" LowBattery; StartWatchdog;
     StopLowBatteryTimer; SendCloseReason "A" LowBattery; StartWatchdog].
Proof. split; vm_compute; reflexivity. Qed.

(** C8 (as the code does it): every battery-state-change message handled
    while the level is [Shutdown], in whatever lifecycle state, calls the
    close procedure with reason [LowBattery]; the handler keeps no memory of
    the previous level, so [n] such messages handled by the [Running] loop,
    or by the shutdown loop (where the event manager's messages are executed
    while the battery is not discharging), start the close procedure [n]
    times. *)
Theorem battery_shutdown_level_closes_each_time (closeOk : string -> bool) (from : string)
  (n : nat) (s : SysMgr) (Hlvl : batteryLevel s = LSShutdown) :
  Execute closeOk (envelope from BatteryStateChangeMessage) s = CloseSystemHandler LowBattery s /\
  (state s = Running ->
   close_invocations
     (trace (snd (running_loop closeOk (repeat (envelope from BatteryStateChangeMessage) n) s)))
   = close_invocations (trace s) + n) /\
  (state s = Shutdown -> is_discharging (batteryState s) = false ->
   close_invocations
     (trace (snd (shutdown_loop closeOk
                    (repeat (envelope Name.evt_manager BatteryStateChangeMessage) n) s)))
   = close_invocations (trace s) + n).
Proof.
  assert (Hstep : forall f t, batteryLevel t = LSShutdown ->
            Execute closeOk (envelope f BatteryStateChangeMessage) t
            = CloseSystemHandler LowBattery t).
  { intros f t Ht; unfold Execute, batteryStateChangeHandler; cbn [body]; rewrite Ht; reflexivity. }
  split; [apply Hstep, Hlvl|]. split.
  - intros Hrun; revert s Hrun Hlvl; induction n as [|n IH]; intros s Hrun Hlvl.
    + simpl; rewrite Hrun; simpl; lia.
    + cbn [repeat]; rewrite running_loop_cons, Hstep by assumption.
      rewrite IH.
      * rewrite close_invocations_CloseSystemHandler; lia.
      * rewrite state_CloseSystemHandler; exact Hrun.
      * rewrite CloseSystemHandler_eq; exact Hlvl.
  - intros Hsd; revert s Hsd Hlvl; induction n as [|n IH]; intros s Hsd Hlvl Hbat.
    + simpl; rewrite Hsd, Hbat; simpl; lia.
    + cbn [repeat shutdown_loop]; rewrite Hsd, Hbat; cbn [State_eqb negb sender].
      rewrite String.eqb_refl, Hstep by assumption.
      rewrite IH.
      * rewrite close_invocations_CloseSystemHandler; lia.
      * rewrite state_CloseSystemHandler; exact Hsd.
      * rewrite CloseSystemHandler_eq; exact Hlvl.
      * rewrite CloseSystemHandler_eq; exact Hbat.
Qed.

Definition sShutdownPlugged : SysMgr :=
  mkSysMgr ["A"] [] false false Shutdown UpdateReasonUpdate LSShutdown PluggedNotCharging
           TetheringOff [].

Lemma battery_shutdown_level_closes_each_time_witness :
  close_invocations
    (trace (snd (running_loop (fun _ => true)
                   (repeat (envelope Name.evt_manager BatteryStateChangeMessage) 3)
                   sLowBattery))) = 3 /\
  close_invocations
    (trace (snd (shutdown_loop (fun _ => true)
                   (repeat (envelope Name.evt_manager BatteryStateChangeMessage) 2)
                   sShutdownPlugged))) = 2.
Proof.
  split.
  - rewrite (proj1 (proj2 (battery_shutdown_level_closes_each_time (fun _ => true)
                             Name.evt_manager 3 sLowBattery eq_refl)) eq_refl).
    reflexivity.
  - rewrite (proj2 (proj2 (battery_shutdown_level_closes_each_time (fun _ => true)
                             Name.evt_manager 2 sShutdownPlugged eq_refl)) eq_refl eq_refl).
    reflexivity.
Defined.

(** ** Tethering *)

Definition sTetheringLowBattery : SysMgr :=
  mkSysMgr [] [] false false Running UpdateReasonUpdate CriticalNotCharging Discharging
           TetheringOn [].

Definition tetheringReq (t : Tethering) : Envelope :=
  envelope Name.appmgr (TetheringStateRequest t).

(** C9 (refuted as stated): with the battery at [CriticalNotCharging], a
    tethering-on and a tethering-off request are each only logged; no
    message at all is sent back to the requester or anyone else. *)
Lemma tethering_low_battery_counterexample :
  trace (Execute (fun _ => true) (tetheringReq TetheringOn) sTetheringLowBattery)
    = [LogTetheringRefused] /\
  trace (Execute (fun _ => true) (tetheringReq TetheringOff) sTetheringLowBattery)
    = [LogTetheringRefused] /\
  filter is_send (trace (Execute (fun _ => true) (tetheringReq TetheringOff)
                          sTetheringLowBattery)) = [].
Proof. repeat split; vm_compute; reflexivity. Qed.

(** C9 (as the code does it): below the [Normal] level a tethering-state
    request is only logged and dropped, with no notification; at [Normal] a
    tethering-on request only asks the application manager for confirmation
    (tethering is switched on when the enabled-response arrives); a
    tethering-off request is applied at once and, when tethering was on,
    followed by a forced phone-mode refresh request to the event manager,
    while when tethering was already off the application manager gets a
    tethering-question abort instead. *)
Theorem tethering_request_handling (closeOk : string -> bool) (from : string)
  (t : Tethering) (s : SysMgr) :
  (batteryLevel s <> Normal ->
   Execute closeOk (envelope from (TetheringStateRequest t)) s = emit LogTetheringRefused s) /\
  (batteryLevel s = Normal ->
   Execute closeOk (envelope from (TetheringStateRequest TetheringOn)) s
     = emit (SendAppmgr TetheringQuestionRequest) s) /\
  tethering (Execute closeOk (envelope from TetheringEnabledResponse) s) = TetheringOn /\
  (batteryLevel s = Normal -> tethering s = TetheringOn ->
   Execute closeOk (envelope from (TetheringStateRequest TetheringOff)) s
     = emit SendRequestPhoneModeForceUpdate
            (with_tethering TetheringOff (emit (SetTetheringModeCalled TetheringOff) s))) /\
  (batteryLevel s = Normal -> tethering s = TetheringOff ->
   Execute closeOk (envelope from (TetheringStateRequest TetheringOff)) s
     = emit (SendAppmgr TetheringQuestionAbort)
            (with_tethering TetheringOff (emit (SetTetheringModeCalled TetheringOff) s))).
Proof.
  unfold Execute, handleTetheringStateRequest, enableTethering, setTetheringMode; cbn [body].
  repeat split.
  - intros H; destruct (batteryLevel s); [contradiction | reflexivity..].
  - intros H; rewrite H; reflexivity.
  - intros H Ht; rewrite H, Ht; reflexivity.
  - intros H Ht; rewrite H, Ht; reflexivity.
Qed.

Lemma tethering_request_handling_witness :
  trace (Execute (fun _ => true) (tetheringReq TetheringOn) sTetheringLowBattery)
    = [LogTetheringRefused] /\
  trace (Execute (fun _ => true) (tetheringReq TetheringOff)
           (with_tethering TetheringOn (mkSysMgr [] [] false false Running UpdateReasonUpdate
                                          Normal Charging TetheringOn [])))
    = [SetTetheringModeCalled TetheringOff; SendRequestPhoneModeForceUpdate].
Proof.
  unfold tetheringReq; split.
  - rewrite (proj1 (tethering_request_handling (fun _ => true) Name.appmgr TetheringOn
                      sTetheringLowBattery)); [reflexivity | discriminate].
  - rewrite (proj1 (proj2 (proj2 (proj2 (tethering_request_handling (fun _ => true) Name.appmgr
                      TetheringOff (with_tethering TetheringOn
                        (mkSysMgr [] [] false false Running UpdateReasonUpdate Normal Charging
                                  TetheringOn [])))))));
      reflexivity.
Defined.

(** ** Further properties of the system manager *)

Lemma existsb_eqb_In (name : string) (l : list string) :
  existsb (String.eqb name) l = true <-> In name l.
Proof.
  rewrite existsb_exists; split.
  - intros [x [Hx E]]; apply String.eqb_eq in E; subst; exact Hx.
  - intros H; exists name; split; [exact H | apply String.eqb_refl].
Qed.

Lemma isOnWhitelist_In (wl : list string) (n : string) :
  isOnWhitelist wl n = true <-> In n wl.
Proof. apply existsb_eqb_In. Qed.

Lemma erase_first_counts (name : string) (l : list string) :
  In name l ->
  length (erase_first name l) = length l - 1 /\
  count_occ string_dec (erase_first name l) name = count_occ string_dec l name - 1 /\
  (forall n, n <> name -> count_occ string_dec (erase_first name l) n = count_occ string_dec l n).
Proof.
  induction l as [|x l IH]; intros H; [destruct H|].
  simpl; destruct (String.eqb x name) eqn:E.
  - apply String.eqb_eq in E; subst.
    destruct (string_dec name name) as [_|C]; [|congruence].
    split; [lia|]. split; [lia|].
    intros n Hn; destruct (string_dec name n); [congruence | reflexivity].
  - apply String.eqb_neq in E.
    destruct H as [H|H]; [congruence|].
    destruct (IH H) as [L [C O]]; simpl.
    split; [destruct l; [destruct H | simpl in *; lia]|].
    split.
    + destruct (string_dec x name); [congruence | exact C].
    + intros n Hn; destruct (string_dec x n); rewrite (O n Hn); reflexivity.
Qed.

(** [DestroySystemService] reports success only when the service answered
    its close request and was registered; it then removes exactly one entry
    of that name from the registry.  When the request fails, or the name is
    not registered, it returns [false] and the registry is unchanged. *)
Theorem destroy_system_service_result (closeOk : string -> bool) (name : string) (s : SysMgr) :
  (closeOk name = false ->
   DestroySystemService closeOk name s = (false, emit (RequestExit name) s)) /\
  (~ In name (servicesList s) ->
   DestroySystemService closeOk name s = (false, emit (RequestExit name) s)) /\
  (closeOk name = true -> In name (servicesList s) ->
   let '(ok, s') := DestroySystemService closeOk name s in
   ok = true /\
   length (servicesList s') = length (servicesList s) - 1 /\
   count_occ string_dec (servicesList s') name = count_occ string_dec (servicesList s) name - 1 /\
   (forall n, n <> name ->
      count_occ string_dec (servicesList s') n = count_occ string_dec (servicesList s) n)).
Proof.
  unfold DestroySystemService, RequestServiceClose; cbn [fst snd].
  split; [|split].
  - intros H; rewrite H; reflexivity.
  - intros H; destruct (closeOk name); [|reflexivity].
    cbn [servicesList emit].
    destruct (existsb (String.eqb name) (servicesList s)) eqn:E; [|reflexivity].
    apply existsb_eqb_In in E; contradiction.
  - intros Hok Hin; rewrite Hok; cbn [servicesList emit].
    assert (E : existsb (String.eqb name) (servicesList s) = true) by (apply existsb_eqb_In; exact Hin).
    rewrite E; cbn [servicesList with_services].
    destruct (erase_first_counts name (servicesList s) Hin) as [L [C O]].
    split; [reflexivity|]. split; [exact L|]. split; [exact C | exact O].
Qed.

Lemma destroy_system_service_result_witness :
  DestroySystemService (fun _ => true) Name.evt_manager
    (mkSysMgr [Name.evt_manager; "A"; Name.evt_manager] [] false false ShutdownReady
              UpdateReasonUpdate Normal Discharging TetheringOff [])
  = (true, mkSysMgr ["A"; Name.evt_manager] [] false false ShutdownReady
                    UpdateReasonUpdate Normal Discharging TetheringOff
                    [RequestExit Name.evt_manager]) /\
  fst (DestroySystemService (fun n => negb (String.eqb n Name.evt_manager)) Name.evt_manager
         (mkSysMgr [Name.evt_manager] [] false false ShutdownReady
                   UpdateReasonUpdate Normal Discharging TetheringOff [])) = false.
Proof.
  split; [vm_compute; reflexivity|].
  rewrite (proj1 (destroy_system_service_result (fun n => negb (String.eqb n Name.evt_manager))
                    Name.evt_manager
                    (mkSysMgr [Name.evt_manager] [] false false ShutdownReady
                              UpdateReasonUpdate Normal Discharging TetheringOff [])));
    vm_compute; reflexivity.
Defined.

(** [StartSystemServices] succeeds exactly when every service of the start
    order completes its start handshake; the registry then holds the old
    services followed by the whole start order, and nothing else changes. *)
Theorem start_system_services_result (startOk : string -> bool) (sorted : list string)
  (s : SysMgr) :
  StartSystemServices startOk sorted s
  = if forallb startOk sorted
    then Some (with_services (servicesList s ++ sorted) s) else None.
Proof.
  revert s; induction sorted as [|n sorted IH]; intros s; simpl.
  - rewrite app_nil_r; destruct s; reflexivity.
  - destruct (startOk n); simpl; [|reflexivity].
    rewrite IH; cbn [servicesList with_services]; rewrite <- app_assoc; reflexivity.
Qed.

Lemma filter_rev {A} (f : A -> bool) (l : list A) :
  filter f (rev l) = rev (filter f l).
Proof.
  induction l as [|x l IH]; simpl; [reflexivity|].
  rewrite filter_app, IH; simpl; destruct (f x); simpl; [reflexivity | apply app_nil_r].
Qed.

(** The update and restore rounds skip the close handshake: they reverse the
    registry and run the destroy pass at once, so close requests go out in
    reverse start order, no close-reason notification is sent, the pending
    register, the watchdog and the lifecycle state are left untouched, and
    the surviving whitelisted services keep their reversed order. *)
Theorem update_restore_rounds_direct (closeOk : string -> bool) (s : SysMgr) :
  (let s1 := UpdateSystemHandler closeOk s in
   servicesList s1 = rev (filter (isOnWhitelist Whitelist.update) (servicesList s)) /\
   readyForCloseRegister s1 = readyForCloseRegister s /\
   watchdogActive s1 = watchdogActive s /\ state s1 = state s /\
   trace s1 = trace s ++ flat_map (destroy_events closeOk Whitelist.update)
                                 (rev (servicesList s))) /\
  (let s1 := RestoreSystemHandler closeOk s in
   servicesList s1 = rev (filter (isOnWhitelist Whitelist.restore) (servicesList s)) /\
   readyForCloseRegister s1 = readyForCloseRegister s /\
   watchdogActive s1 = watchdogActive s /\ state s1 = state s /\
   trace s1 = trace s ++ flat_map (destroy_events closeOk Whitelist.restore)
                                 (rev (servicesList s))).
Proof.
  unfold UpdateSystemHandler, RestoreSystemHandler; cbv zeta.
  rewrite !DestroyServices_eq; cbn; rewrite !filter_rev.
  repeat split.
Qed.

(** The survivor sets are nested: whatever the registry, every service kept
    by a regular close is also kept by a restore, and every service kept by
    a restore is also kept by an update. *)
Theorem whitelist_survivors_nested (closeOk : string -> bool) (s : SysMgr) :
  incl (servicesList (DestroyServices closeOk Whitelist.regularClose s))
       (servicesList (DestroyServices closeOk Whitelist.restore s)) /\
  incl (servicesList (DestroyServices closeOk Whitelist.restore s))
       (servicesList (DestroyServices closeOk Whitelist.update s)).
Proof.
  rewrite !DestroyServices_eq; cbn [servicesList].
  split; intros n Hn; apply filter_In in Hn as [Hin Hw]; apply filter_In;
    split; try exact Hin; apply isOnWhitelist_In; apply isOnWhitelist_In in Hw;
    unfold Whitelist.regularClose, Whitelist.restore, Whitelist.update in *;
    simpl in *; tauto.
Qed.

Definition startQuery : Envelope := envelope Name.appmgr CheckIfStartAllowedMessage.

Lemma start_queries_armed (closeOk : string -> bool) (k : nat) :
  forall t, state t = Running -> batteryLevel t = LSShutdown -> lowBatteryTimerActive t = true ->
  snd (running_loop closeOk (repeat startQuery k) t)
  = mkSysMgr (servicesList t) (readyForCloseRegister t) (watchdogActive t) true (state t)
             (updateReason t) (batteryLevel t) (batteryState t) (tethering t)
             (trace t ++ repeat (SendAppmgr (StartAllowedMessage StartupLowBattery)) k).
Proof.
  induction k as [|k IH]; intros t Hr Hl Ha.
  - destruct t; cbn in *; subst; rewrite app_nil_r; reflexivity.
  - destruct t; cbn in Hr, Hl, Ha; subst.
    cbn [repeat]; rewrite running_loop_cons by reflexivity.
    unfold Execute at 1, checkIfStartAllowedHandler; cbn.
    rewrite IH by reflexivity; cbn.
    rewrite <- app_assoc; reflexivity.
Qed.

(** The start-allowed answer follows the battery level (regular at
    [Normal], low-battery at [Shutdown] and [CriticalNotCharging],
    low-battery-charging at [CriticalCharging]) and only the [Shutdown] level
    arms the low-battery shutdown timer.  The re-arm guard holds: any number
    [k+1] of queries at the [Shutdown] level with the timer idle start it
    once and answer every query. *)
Theorem start_allowed_arms_timer_once (closeOk : string -> bool) (k : nat) (s : SysMgr)
  (Hrun : state s = Running) (Hlvl : batteryLevel s = LSShutdown)
  (Hidle : lowBatteryTimerActive s = false) :
  (forall t, lowBatteryTimerActive (checkIfStartAllowedHandler t)
             = lowBatteryTimerActive t || match batteryLevel t with LSShutdown => true | _ => false end /\
             exists ty, trace (checkIfStartAllowedHandler t)
                        = trace t ++ (if match batteryLevel t with LSShutdown => negb (lowBatteryTimerActive t) | _ => false end
                                      then [StartLowBatteryTimer] else [])
                                  ++ [SendAppmgr (StartAllowedMessage ty)] /\
                        ty = match batteryLevel t with
                             | Normal => StartupRegular
                             | CriticalCharging => StartupLowBatteryCharging
                             | _ => StartupLowBattery
                             end) /\
  trace (snd (running_loop closeOk (repeat startQuery (S k)) s))
    = trace s ++ StartLowBatteryTimer
              :: repeat (SendAppmgr (StartAllowedMessage StartupLowBattery)) (S k) /\
  lowBatteryTimerActive (snd (running_loop closeOk (repeat startQuery (S k)) s)) = true.
Proof.
  split.
  - intros [sl rg wd lb st ur lvl bs te tr]; unfold checkIfStartAllowedHandler; cbn.
    destruct lvl, lb; cbn;
      split; try reflexivity; eexists; split;
      try (rewrite <- ?app_assoc; reflexivity); reflexivity.
  - cbn [repeat]; rewrite running_loop_cons by exact Hrun.
    unfold Execute, checkIfStartAllowedHandler; cbn [body]; rewrite Hlvl, Hidle.
    rewrite start_queries_armed by (cbn; assumption || reflexivity).
    cbn; split; [|reflexivity].
    rewrite <- !app_assoc; reflexivity.
Qed.

Lemma start_allowed_arms_timer_once_witness :
  lowBatteryTimerActive (snd (running_loop (fun _ => true) (repeat startQuery 3) sLowBattery))
  = true.
Proof.
  exact (proj2 (proj2 (start_allowed_arms_timer_once (fun _ => true) 2 sLowBattery
                         eq_refl eq_refl eq_refl))).
Defined.

Definition lowBatteryExpiry : Envelope :=
  envelope Name.system_manager LowBatteryShutdownDelayExpired.

(** The delayed low-battery shutdown: at the [Shutdown] level a start query
    arms the timer, its expiry runs the close procedure with reason
    [LowBattery], and since that procedure stops the timer, a further expiry
    delivered afterwards does nothing. *)
Theorem low_battery_delay_closes_once (closeOk : string -> bool) (s : SysMgr)
  (Hrun : state s = Running) (Hlvl : batteryLevel s = LSShutdown) :
  snd (running_loop closeOk [startQuery; lowBatteryExpiry; lowBatteryExpiry] s)
  = CloseSystemHandler LowBattery (checkIfStartAllowedHandler s).
Proof.
  assert (Hs1 : state (checkIfStartAllowedHandler s) = Running /\
                lowBatteryTimerActive (checkIfStartAllowedHandler s) = true).
  { unfold checkIfStartAllowedHandler; rewrite Hlvl.
    destruct (lowBatteryTimerActive s) eqn:LB; cbn; rewrite ?LB; auto. }
  destruct Hs1 as [Hs1 Ha1].
  rewrite running_loop_cons by exact Hrun.
  change (Execute closeOk startQuery s) with (checkIfStartAllowedHandler s).
  assert (EX : forall x, Execute closeOk lowBatteryExpiry x
                        = if lowBatteryTimerActive x then CloseSystemHandler LowBattery x else x)
    by reflexivity.
  rewrite running_loop_cons by exact Hs1.
  rewrite EX, Ha1.
  rewrite running_loop_cons by (rewrite state_CloseSystemHandler; exact Hs1).
  rewrite EX, (proj1 (close_stops_low_battery_timer LowBattery (checkIfStartAllowedHandler s))).
  cbn [running_loop]; destruct (State_eqb (state _) Running); reflexivity.
Qed.

Lemma low_battery_delay_closes_once_witness :
  close_invocations
    (trace (snd (running_loop (fun _ => true)
                   [startQuery; lowBatteryExpiry; lowBatteryExpiry] sLowBattery))) = 1.
Proof.
  rewrite (low_battery_delay_closes_once (fun _ => true) sLowBattery eq_refl eq_refl).
  vm_compute; reflexivity.
Defined.

Lemma flat_map_whitelisted (closeOk : string -> bool) (wl l : list string) :
  (forall n, In n l -> isOnWhitelist wl n = true) ->
  flat_map (destroy_events closeOk wl) l = map LogDelayClosing l.
Proof.
  induction l as [|n l IH]; intros H; [reflexivity|].
  simpl; unfold destroy_events at 1; rewrite (H n (or_introl eq_refl)).
  rewrite IH; [reflexivity|]. intros x Hx; apply H; right; exact Hx.
Qed.

Definition watchdogExpiry : Envelope := envelope Name.system_manager PreShutdownTimerExpired.

(** The pre-shutdown watchdog is a periodic timer that [CloseServices] does
    not stop: after it has fired once it is still running, and its next
    expiry runs [CloseServices] again.  That second run only logs the
    whitelisted survivors and sets [Shutdown] again: the registry is
    unchanged and no further close request or kill happens. *)
Theorem watchdog_refire_harmless (closeOk : string -> bool) (s : SysMgr)
  (Hwd : watchdogActive s = true) :
  let s1 := Execute closeOk watchdogExpiry s in
  let s2 := Execute closeOk watchdogExpiry s1 in
  s1 = CloseServices closeOk s /\
  watchdogActive s1 = true /\
  s2 = CloseServices closeOk s1 /\
  servicesList s2 = servicesList s1 /\
  readyForCloseRegister s2 = [] /\
  trace s2 = trace s1 ++ map LogDelayClosing (servicesList s1) ++ [SetState Shutdown].
Proof.
  cbv zeta; unfold watchdogExpiry.
  assert (E1 : Execute closeOk (envelope Name.system_manager PreShutdownTimerExpired) s = CloseServices closeOk s)
    by (apply Execute_watchdog; exact Hwd).
  assert (W1 : watchdogActive (CloseServices closeOk s) = true)
    by (rewrite CloseServices_eq; exact Hwd).
  rewrite E1, (Execute_watchdog closeOk Name.system_manager _ W1).
  split; [reflexivity|]. split; [exact W1|]. split; [reflexivity|].
  assert (Hc : readyForCloseRegister (CloseServices closeOk s) = [])
    by (rewrite CloseServices_eq; reflexivity).
  assert (Hf : forall n, In n (servicesList (CloseServices closeOk s)) ->
                         isOnWhitelist Whitelist.regularClose n = true).
  { rewrite CloseServices_eq; cbn [servicesList].
    intros n Hn; apply filter_In in Hn; apply Hn. }
  clear E1 W1; generalize dependent (CloseServices closeOk s); intros c Hc Hf.
  rewrite (CloseServices_eq closeOk c); cbn [servicesList readyForCloseRegister trace].
  rewrite Hc, (filter_all_true _ _ Hf), (flat_map_whitelisted closeOk _ _ Hf).
  repeat split.
Qed.

Lemma watchdog_refire_harmless_witness :
  watchdogActive (CloseSystemHandler RegularPowerDown sC3) = true /\
  servicesList (Execute closeOk_all_but_B watchdogExpiry
                  (Execute closeOk_all_but_B watchdogExpiry
                     (CloseSystemHandler RegularPowerDown sC3)))
  = servicesList (Execute closeOk_all_but_B watchdogExpiry
                    (CloseSystemHandler RegularPowerDown sC3)).
Proof.
  split; [reflexivity|].
  exact (proj1 (proj2 (proj2 (proj2
           (watchdog_refire_harmless closeOk_all_but_B
              (CloseSystemHandler RegularPowerDown sC3) eq_refl))))).
Defined.

(** A second close procedure, e.g. a power-down request arriving after a
    low-battery close, reverses [servicesList] once more, so the registry is
    back in start order; every service becomes pending a second time, and the
    second broadcast goes out in start order, not in reverse. *)
Theorem close_twice_restores_order (r1 r2 : CloseReason) (s : SysMgr) :
  let s2 := CloseSystemHandler r2 (CloseSystemHandler r1 s) in
  servicesList s2 = servicesList s /\
  readyForCloseRegister s2
    = readyForCloseRegister s ++ rev (servicesList s) ++ servicesList s /\
  trace s2 = trace s ++ StopLowBatteryTimer
                      :: map (fun n => SendCloseReason n r1) (rev (servicesList s))
                      ++ StartWatchdog :: StopLowBatteryTimer
                      :: map (fun n => SendCloseReason n r2) (servicesList s)
                      ++ [StartWatchdog].
Proof.
  cbv zeta.
  rewrite (CloseSystemHandler_eq r2), (CloseSystemHandler_eq r1); cbn [servicesList readyForCloseRegister trace].
  rewrite rev_involutive.
  split; [reflexivity|]. split; [rewrite <- app_assoc; reflexivity|].
  repeat (rewrite <- app_assoc || rewrite <- app_comm_cons); reflexivity.
Qed.

(** While the shutdown loop waits with the battery not discharging, a message
    from any sender other than the event manager is not executed: it is only
    logged, the loop keeps waiting, and no field but the trace changes. *)
Theorem shutdown_loop_ignores_others (closeOk : string -> bool) (mb : list Envelope)
  (s : SysMgr)
  (Hsd : state s = Shutdown) (Hbat : is_discharging (batteryState s) = false)
  (Hfrom : Forall (fun m => sender m <> Name.evt_manager) mb) :
  shutdown_loop closeOk mb s
  = ([], mkSysMgr (servicesList s) (readyForCloseRegister s) (watchdogActive s)
                  (lowBatteryTimerActive s) (state s) (updateReason s) (batteryLevel s)
                  (batteryState s) (tethering s)
                  (trace s ++ map (fun m => LogIgnoredOnShutdown (sender m)) mb)).
Proof.
  revert s Hsd Hbat; induction Hfrom as [|m mb Hm _ IH]; intros s Hsd Hbat.
  - cbn [shutdown_loop]; rewrite Hsd, Hbat; cbn [State_eqb].
    destruct s; cbn in *; subst; rewrite app_nil_r; reflexivity.
  - cbn [shutdown_loop]; rewrite Hsd, Hbat; cbn [State_eqb negb andb].
    apply String.eqb_neq in Hm; rewrite Hm.
    rewrite IH by assumption.
    unfold emit; cbn; rewrite <- app_assoc, Hsd; reflexivity.
Qed.

Lemma shutdown_loop_ignores_others_witness :
  fst (shutdown_loop (fun _ => true)
         [envelope Name.appmgr UserPowerDownRequest; envelope Name.gui KbdMessage]
         (with_state Shutdown sC3)) = [].
Proof.
  rewrite shutdown_loop_ignores_others.
  - reflexivity.
  - reflexivity.
  - vm_compute; reflexivity.
  - repeat constructor; cbn; discriminate.
Defined.

Lemma shutdown_loop_stopped (closeOk : string -> bool) (mb : list Envelope) (s : SysMgr) :
  State_eqb (state s) Shutdown = false -> shutdown_loop closeOk mb s = (mb, s).
Proof. intros H; destruct mb; simpl; rewrite H; reflexivity. Qed.

Lemma DestroySystemService_fields (closeOk : string -> bool) (name : string) (s : SysMgr) :
  state (snd (DestroySystemService closeOk name s)) = state s /\
  updateReason (snd (DestroySystemService closeOk name s)) = updateReason s.
Proof.
  unfold DestroySystemService, RequestServiceClose; cbn [fst snd].
  destruct (closeOk name); [|split; reflexivity].
  destruct (existsb _ _); split; reflexivity.
Qed.

Lemma terminal_switch_DestroySystemService (closeOk : string -> bool) (name : string)
  (s : SysMgr) :
  terminal_switch (snd (DestroySystemService closeOk name s)) = terminal_switch s.
Proof.
  unfold terminal_switch; destruct (DestroySystemService_fields closeOk name s) as [-> ->].
  reflexivity.
Qed.

(** [Run] on a reboot command: the running loop stops right after the
    handler, the shutdown loop is skipped, the event manager is destroyed,
    and the power action is a plain reboot for [Reboot] and a reboot to
    update carrying the command's update reason for [RebootToUpdate]; the
    rest of the mailbox is never read. *)
Theorem run_reboot_commands (closeOk : string -> bool) (from : string) (r : CloseReason)
  (u : UpdateReason) (mb : list Envelope) (s : SysMgr) (Hrun : state s = Running) :
  Run closeOk (envelope from (SystemManagerCmd true CodeReboot r u) :: mb) s
    = Some (PowerReboot,
            snd (DestroySystemService closeOk Name.evt_manager (RebootHandler Reboot None s))) /\
  Run closeOk (envelope from (SystemManagerCmd true CodeRebootToUpdate r u) :: mb) s
    = Some (PowerRebootToUpdate u,
            snd (DestroySystemService closeOk Name.evt_manager
                   (RebootHandler RebootToUpdate (Some u) s))).
Proof.
  assert (SR : forall st o, state (RebootHandler st o s) = st)
    by (intros st [o|]; reflexivity).
  assert (UR : updateReason (RebootHandler RebootToUpdate (Some u) s) = u) by reflexivity.
  split; unfold Run;
    rewrite running_loop_cons by exact Hrun;
    unfold Execute at 1; cbn [body];
    (rewrite running_loop_stopped by (rewrite SR; reflexivity));
    rewrite SR; cbn [State_eqb];
    (rewrite shutdown_loop_stopped by (rewrite SR; reflexivity));
    rewrite SR; cbn [State_eqb];
    destruct (DestroySystemService closeOk Name.evt_manager _) as [b s3] eqn:D;
    f_equal; f_equal;
    change s3 with (snd (b, s3)); rewrite <- D, terminal_switch_DestroySystemService;
    unfold terminal_switch; rewrite SR; [reflexivity|rewrite UR; reflexivity].
Qed.

Lemma run_reboot_commands_witness :
  state sC3 = Running /\
  exists s', Run (fun _ => true)
               [envelope Name.appmgr
                  (SystemManagerCmd true CodeRebootToUpdate CRReboot UpdateReasonRecovery)] sC3
             = Some (PowerRebootToUpdate UpdateReasonRecovery, s').
Proof.
  split; [reflexivity|]. eexists.
  exact (proj2 (run_reboot_commands (fun _ => true) Name.appmgr CRReboot UpdateReasonRecovery
                  [] sC3 eq_refl)).
Defined.

Lemma shutdown_loop_discharging (closeOk : string -> bool) (mb : list Envelope) (s : SysMgr) :
  state s = Shutdown -> is_discharging (batteryState s) = true ->
  shutdown_loop closeOk mb s = (mb, set ShutdownReady s).
Proof. intros H B; destruct mb; simpl; rewrite H, B; reflexivity. Qed.

(** [Run] on a close command followed by the watchdog expiry, with the
    battery discharging: the running loop is left in [Shutdown], the
    shutdown loop moves to [ShutdownReady] at once without reading any mail,
    and the power action is power-off. *)
Theorem run_close_power_off (closeOk : string -> bool) (from : string) (r : CloseReason)
  (u : UpdateReason) (mb : list Envelope) (s : SysMgr)
  (Hrun : state s = Running) (Hbat : is_discharging (batteryState s) = true) :
  Run closeOk (envelope from (SystemManagerCmd true CodeCloseSystem r u)
               :: watchdogExpiry :: mb) s
  = Some (PowerOff,
          snd (DestroySystemService closeOk Name.evt_manager
                 (set ShutdownReady (CloseServices closeOk (CloseSystemHandler r s))))).
Proof.
  unfold Run.
  rewrite running_loop_cons, Execute_close_cmd by exact Hrun.
  rewrite running_loop_cons by (rewrite state_CloseSystemHandler; exact Hrun).
  unfold watchdogExpiry.
  rewrite Execute_watchdog by (rewrite CloseSystemHandler_eq; reflexivity).
  rewrite running_loop_stopped by (rewrite CloseServices_eq; reflexivity).
  rewrite (CloseServices_eq closeOk (CloseSystemHandler r s)) at 1; cbn [state State_eqb].
  rewrite shutdown_loop_discharging
    by (rewrite CloseServices_eq; cbn [batteryState]; try reflexivity;
        rewrite CloseSystemHandler_eq; exact Hbat).
  assert (SR : state (set ShutdownReady (CloseServices closeOk (CloseSystemHandler r s)))
               = ShutdownReady) by reflexivity.
  rewrite SR; cbn [State_eqb].
  destruct (DestroySystemService closeOk Name.evt_manager _) as [b s3] eqn:D.
  change s3 with (snd (b, s3)); rewrite <- D, terminal_switch_DestroySystemService.
  unfold terminal_switch; rewrite SR; reflexivity.
Qed.

Lemma run_close_power_off_witness :
  exists s', Run (fun _ => true) [closeCmd; watchdogExpiry] sLowBattery = Some (PowerOff, s').
Proof.
  eexists; unfold closeCmd.
  exact (run_close_power_off (fun _ => true) Name.appmgr RegularPowerDown UpdateReasonUpdate
           [] sLowBattery eq_refl eq_refl).
Defined.

(** Tethering locks the phone mode: once tethering has been enabled, a
    phone-mode request is refused and the prohibition popup is sent to the
    application manager.  A tethering-off request unlocks it again at the
    [Normal] battery level (setting the mode and asking the event manager
    for a phone-mode update), but at any other level the request is refused
    and the phone mode stays locked. *)
Theorem tethering_gates_phone_mode (m : PhoneMode) (s : SysMgr) :
  let on := enableTethering s in
  handlePhoneModeRequest m on
    = (None, emit (SendAppmgr TetheringPhoneModeChangeProhibitedMessage) on) /\
  (batteryLevel s = Normal ->
   trace (handleTetheringStateRequest TetheringOff on)
     = trace on ++ [SetTetheringModeCalled TetheringOff; SendRequestPhoneModeForceUpdate] /\
   fst (handlePhoneModeRequest m (handleTetheringStateRequest TetheringOff on)) = Some m) /\
  (batteryLevel s <> Normal ->
   fst (handlePhoneModeRequest m (handleTetheringStateRequest TetheringOff on)) = None).
Proof.
  cbv zeta; split; [reflexivity|]. split.
  - intros H; unfold handleTetheringStateRequest, enableTethering, setTetheringMode.
    cbn [snd batteryLevel with_tethering emit]; rewrite H; cbn.
    rewrite <- app_assoc; split; reflexivity.
  - intros H; unfold handleTetheringStateRequest, enableTethering, setTetheringMode.
    cbn [snd batteryLevel with_tethering emit].
    destruct (batteryLevel s); [contradiction|reflexivity..].
Qed.

Lemma tethering_gates_phone_mode_witness :
  fst (handlePhoneModeRequest Offline
         (handleTetheringStateRequest TetheringOff (enableTethering sC3))) = Some Offline /\
  fst (handlePhoneModeRequest Offline
         (handleTetheringStateRequest TetheringOff (enableTethering sLowBattery))) = None.
Proof.
  split.
  - exact (proj2 (proj1 (proj2 (tethering_gates_phone_mode Offline sC3)) eq_refl)).
  - apply (proj2 (proj2 (tethering_gates_phone_mode Offline sLowBattery))); discriminate.
Defined.

(** [translateSliderState] maps the three slider positions one-to-one onto
    the three phone modes and rejects (throws on) every other key code. *)
Theorem slider_state_bijection :
  (forall k, translateSliderState k = None <-> exists c, k = OtherKey c) /\
  (forall k1 k2 m, translateSliderState k1 = Some m -> translateSliderState k2 = Some m ->
                   k1 = k2) /\
  (forall m, exists k, translateSliderState k = Some m).
Proof.
  split; [|split].
  - intros [| | |c]; cbn; split; intros H;
      first [ discriminate | destruct H; discriminate | eexists; reflexivity
            | reflexivity ].
  - intros [| | |c1] [| | |c2] m; cbn; intros H1 H2; congruence.
  - intros []; [exists SSwitchUp | exists SSwitchMid | exists SSwitchDown]; reflexivity.
Qed.

(** [CpuStatisticsTimerHandler]: over [n+1] expiries from the initial
    state, the timer is re-armed with the period interval exactly once, on
    the first expiry, and every expiry updates the statistics and then the
    CPU frequency. *)
Theorem cpu_timer_restarts_once (n : nat) :
  cpu_ticks (S n) false
  = (true, CpuTimerRestart
             :: concat (repeat [CpuStatisticsUpdate; CpuFrequencyUpdate] (S n))).
Proof.
  assert (Hinit : forall k, cpu_ticks k true
                            = (true, concat (repeat [CpuStatisticsUpdate; CpuFrequencyUpdate] k))).
  { induction k as [|k IH]; [reflexivity|].
    transitivity (let '(i2, e2) := cpu_ticks k true
                  in (i2, [CpuStatisticsUpdate; CpuFrequencyUpdate] ++ e2));
      [reflexivity|].
    rewrite IH; reflexivity. }
  transitivity (let '(i2, e2) := cpu_ticks n true
                in (i2, [CpuTimerRestart; CpuStatisticsUpdate; CpuFrequencyUpdate] ++ e2));
    [reflexivity|].
  rewrite Hinit; reflexivity.
Qed.

(** Away from the [Shutdown] level, the battery state change handler and the
    cellular start query command the same modem power (on exactly at the
    [Normal] level); the state change handler then notifies the application
    manager whether the level is critical, and neither handler touches any
    field but the trace. *)
Theorem battery_cellular_power_agree (s : SysMgr) (Hlvl : batteryLevel s <> LSShutdown) :
  let on := match batteryLevel s with Normal => true | _ => false end in
  let charging := match batteryLevel s with CriticalCharging => true | _ => false end in
  batteryStateChangeHandler s
    = emit (SendAppmgr (CriticalBatteryLevelNotification (negb on) charging))
           (emit (CellularPower on) s) /\
  cellularCheckIfStartAllowedHandler s = emit (CellularPower on) s.
Proof.
  cbv zeta; unfold batteryStateChangeHandler, cellularCheckIfStartAllowedHandler.
  destruct (batteryLevel s); [| contradiction | |]; split; reflexivity.
Qed.

Lemma battery_cellular_power_agree_witness :
  cellularCheckIfStartAllowedHandler sTetheringLowBattery
  = emit (CellularPower false) sTetheringLowBattery.
Proof.
  exact (proj2 (battery_cellular_power_agree sTetheringLowBattery ltac:(discriminate))).
Defined.
